(** * richfetch: a shallow embedding of [richfetch.py] and [fetch.py]

    The repository holds two programs that print a "fetch"-style system
    report: the rich variant ([richfetch.py]) and the minimal variant
    ([fetch.py]).  Both read the host through library calls (psutil,
    platform, socket, requests), decorate what they read and print one line
    per entry of a Python [dict].

    The embedding keeps the shape of the Python code:
    - numbers that Python holds in a [float] are rationals ([Q]): every
      finite float is one, and the code only compares, divides by a power of
      two and takes floors of them;
    - the [dict] that holds the report is an association list with Python's
      update rule (a key that is already there keeps its place and gets the
      new value), because the order of the entries is what is printed;
    - the dictionaries the code only reads ([psutil.sensors_temperatures()],
      [os.environ], a JSON object) are [gmap]s;
    - the library calls are answered by a [host] record, and the effects of
      a run (network calls, text written to standard output) are appended
      to a trace by a small reader/state/exception monad. *)

From Stdlib Require Import String Ascii List ZArith QArith Qround Lia Bool.
From Stdlib Require Import DecimalString Lqa.
From stdpp Require Import base gmap strings.

Import ListNotations.
Local Open Scope string_scope.
Local Open Scope list_scope.

(** ** Python values *)

(** [str(n)] for an [int]. *)
Definition str_int (n : Z) : string := NilZero.string_of_int (Z.to_int n).

(** A value that may be [None]; [f"{v}"] prints [None] as the word. *)
Definition pyval : Type := option string.

Definition format_value (v : pyval) : string :=
  match v with
  | Some s => s
  | None => "None"
  end.

(** [a or b] on optional strings: the empty string and [None] are falsy. *)
Definition py_or (a b : pyval) : pyval :=
  match a with
  | Some s => if String.eqb s "" then b else a
  | None => b
  end.

(** [x < y] on floats. *)
Definition py_lt (x y : Q) : bool := negb (Qle_bool y x).

(** [x // y] and [x % y] on floats, for a positive [y]: floor division and
    the remainder that goes with it. *)
Definition py_floordiv (x y : Q) : Q := inject_Z (Qfloor (x / y)%Q).
Definition py_mod (x y : Q) : Q := (x - y * py_floordiv x y)%Q.

(** [int(x)]: truncation towards zero. *)
Definition py_int (x : Q) : Z := Z.quot (Qnum x) (Z.pos (Qden x)).

(** [round(x)]: to the nearest integer, ties to the even one. *)
Definition py_round (x : Q) : Z :=
  let f := Qfloor x in
  let r := (x - inject_Z f)%Q in
  if py_lt r (1 # 2)%Q then f
  else if py_lt (1 # 2)%Q r then (f + 1)%Z
  else if Z.even f then f else (f + 1)%Z.

(** The UTF-8 encoding of a code point, so that the glyphs of the source can
    be written by their number. *)
Definition byte_of (n : N) : ascii := ascii_of_N n.

Definition utf8 (cp : N) : string :=
  if (cp <? 0x80)%N then String (byte_of cp) ""
  else if (cp <? 0x800)%N then
    String (byte_of (0xC0 + cp / 0x40))
      (String (byte_of (0x80 + cp mod 0x40)) "")
  else if (cp <? 0x10000)%N then
    String (byte_of (0xE0 + cp / 0x1000))
      (String (byte_of (0x80 + (cp / 0x40) mod 0x40))
         (String (byte_of (0x80 + cp mod 0x40)) ""))
  else
    String (byte_of (0xF0 + cp / 0x40000))
      (String (byte_of (0x80 + (cp / 0x1000) mod 0x40))
         (String (byte_of (0x80 + (cp / 0x40) mod 0x40))
            (String (byte_of (0x80 + cp mod 0x40)) ""))).

Arguments utf8 cp%_N.

(** The line feed that [print] writes after its argument. *)
Definition nl : string := String (ascii_of_N 10) "".

Definition is_not_None {A : Type} (v : option A) : bool :=
  match v with
  | Some _ => true
  | None => false
  end.

(** ** Python dictionaries that are iterated

    A [dict] keeps its keys in insertion order; storing under a key that is
    already present replaces the value and leaves the key where it is. *)

Definition pydict (V : Type) : Type := list (string * V).

Fixpoint dict_set {V : Type} (k : string) (v : V) (d : pydict V) : pydict V :=
  match d with
  | [] => [(k, v)]
  | (k', v') :: d' =>
      if String.eqb k' k then (k', v) :: d' else (k', v') :: dict_set k v d'
  end.

(** [d.update(items)], and the display [{k1: v1, ..., kn: vn}]. *)
Definition dict_update {V : Type} (d items : pydict V) : pydict V :=
  fold_left (fun acc kv => dict_set (fst kv) (snd kv) acc) items d.

Definition dict_literal {V : Type} (items : list (string * V)) : pydict V :=
  dict_update [] items.

(** [d.get(k)] and [d.get(k, default)]. *)
Fixpoint dict_get {V : Type} (k : string) (d : pydict V) : option V :=
  match d with
  | [] => None
  | (k', v) :: d' => if String.eqb k' k then Some v else dict_get k d'
  end.

Definition dict_get_default {V : Type} (k : string) (default : V)
    (d : pydict V) : V :=
  match dict_get k d with
  | Some v => v
  | None => default
  end.

Definition dict_keys {V : Type} (d : pydict V) : list string := map fst d.

(** ** Exceptions *)

Inductive exn_class : Type :=
  | RequestException   (* requests.exceptions.RequestException and below *)
  | OSError            (* socket.error is OSError *)
  | KeyError
  | IndexError
  | TypeError
  | ValueError
  | AttributeError
  | OtherException.

Record exn : Type := Exn { exn_cls : exn_class; exn_msg : string }.

(** The [except] clauses of the two programs. *)
Definition is_RequestException (e : exn) : bool :=
  match exn_cls e with
  | RequestException => true
  | _ => false
  end.

(** [requests] derives [RequestException] from [IOError], that is, from
    [OSError]. *)
Definition is_socket_error (e : exn) : bool :=
  match exn_cls e with
  | OSError | RequestException => true
  | _ => false
  end.

Definition is_AttributeError (e : exn) : bool :=
  match exn_cls e with
  | AttributeError => true
  | _ => false
  end.

Definition is_Exception (e : exn) : bool := true.

(** ** The host

    What the library calls return on the machine the program runs on. *)

(** An entry of [psutil.sensors_temperatures()]. *)
Record shwtemp : Type := { label : string; current : Q }.

(** [psutil.sensors_battery()]. *)
Record sbattery : Type := { percent : Q; power_plugged : option bool }.

(** [psutil.disk_usage("/")] and [psutil.virtual_memory()]. *)
Record usage : Type := { total : Z; used : Z; usage_percent : Q }.

(** The value [response.json()] parses. *)
Inductive json : Type :=
  | JObject (fields : gmap string string)
  | JArray
  | JScalar.

(** A [requests.Response]: what [raise_for_status()] raises, if anything,
    and what [json()] gives. *)
Record response : Type :=
  { status_error : option exn; json_result : exn + json }.

(** A UDP socket: what [connect] raises, if anything, and what
    [getsockname()[[0]]] gives. *)
Record udp_socket : Type :=
  { connect_error : option exn; getsockname_result : exn + string }.

Record host : Type := {
  platform_system : string;
  (** [platform.mac_ver()[[0]]] and [str(platform.win32_ver())] *)
  mac_ver : string;
  win32_ver : string;
  (** [platform.freedesktop_os_release()[["PRETTY_NAME"]]] *)
  os_release_PRETTY_NAME : string;
  getlogin : string;
  nodename : string;
  environ : gmap string string;
  (** [psutil.boot_time()], in seconds since the epoch *)
  boot_time : Q;
  (** [datetime.now()], in microseconds since the epoch *)
  datetime_now : Z;
  brand_raw : string;
  cpu_percent : Q;
  sensors_temperatures : option (gmap string (list shwtemp));
  sensors_battery : option sbattery;
  disk_usage : usage;
  virtual_memory : usage;
  (** [requests.get(url)] *)
  requests_get_result : exn + response;
  (** [socket.socket(AF_INET, SOCK_DGRAM)] *)
  socket_result : exn + udp_socket
}.

(** ** Effects *)

Inductive event : Type :=
  | HttpGet (url : string)
  | SocketCreate
  | SocketConnect (address : string) (port : Z)
  | SocketGetsockname
  | SocketClose
  | Stdout (text : string).

Definition trace : Type := list event.

(** A computation reads the host, appends to the trace and returns a value
    or raises. *)
Definition M (A : Type) : Type := host -> trace -> (exn + A) * trace.

#[global] Instance M_ret : MRet M := fun A x _ t => (inr x, t).

#[global] Instance M_bind : MBind M := fun A B f m h t =>
  match m h t with
  | (inr x, t') => f x h t'
  | (inl e, t') => (inl e, t')
  end.

Definition ask : M host := fun h t => (inr h, t).
Definition emit (e : event) : M unit := fun _ t => (inr tt, t ++ [e]).
Definition raise {A : Type} (e : exn) : M A := fun _ t => (inl e, t).

(** [try: body except c1 as e: h1 except c2 as e: h2]: the first clause
    that matches the exception handles it. *)
Definition try_except {A : Type} (body : M A)
    (handlers : list ((exn -> bool) * (exn -> M A))) : M A :=
  fun h t =>
    match body h t with
    | (inl e, t') =>
        match find (fun c => fst c e) handlers with
        | Some c => snd c e h t'
        | None => (inl e, t')
        end
    | r => r
    end.

(** [for x in xs: body(x)] *)
Fixpoint for_each {A : Type} (xs : list A) (body : A -> M unit) : M unit :=
  match xs with
  | [] => mret tt
  | x :: xs' => body x ;; for_each xs' body
  end.

(** [print(s)] and [print(s, end="")] *)
Definition print (s : string) : M unit := emit (Stdout (s +:+ nl)).
Definition print_end (s : string) : M unit := emit (Stdout s).

(** The library calls that have an effect or can raise. *)
Definition requests_get (url : string) : M response :=
  emit (HttpGet url) ;;
  h ← ask;
  match requests_get_result h with
  | inl e => raise e
  | inr r => mret r
  end.

Definition raise_for_status (r : response) : M unit :=
  match status_error r with
  | Some e => raise e
  | None => mret tt
  end.

Definition response_json (r : response) : M json :=
  match json_result r with
  | inl e => raise e
  | inr j => mret j
  end.

(** [j[[key]]] *)
Definition json_getitem (j : json) (key : string) : M string :=
  match j with
  | JObject fields =>
      match fields !! key with
      | Some v => mret v
      | None => raise (Exn KeyError ("'" +:+ key +:+ "'"))
      end
  | JArray => raise (Exn TypeError "list indices must be integers or slices, not str")
  | JScalar => raise (Exn TypeError "object is not subscriptable")
  end.

Definition socket_socket : M udp_socket :=
  h ← ask;
  match socket_result h with
  | inl e => raise e
  | inr s => emit SocketCreate ;; mret s
  end.

Definition socket_connect (s : udp_socket) (address : string) (port : Z)
    : M unit :=
  emit (SocketConnect address port) ;;
  match connect_error s with
  | Some e => raise e
  | None => mret tt
  end.

Definition socket_getsockname (s : udp_socket) : M string :=
  emit SocketGetsockname ;;
  match getsockname_result s with
  | inl e => raise e
  | inr ip => mret ip
  end.

Definition socket_close (s : udp_socket) : M unit := emit SocketClose.

(** ** What both programs compute the same way *)

(** [datetime.fromtimestamp(t)]: rounded to the microsecond. *)
Definition datetime_fromtimestamp (t : Q) : Z := py_round (t * 1000000)%Q.

(** [timedelta.total_seconds()] of a difference held in microseconds. *)
Definition total_seconds (delta : Z) : Q := (inject_Z delta / 1000000)%Q.

(** The uptime lines of [get_system_info], the same in both files. *)
Definition uptime_hours (boot_delta : Z) : Z :=
  py_int (py_floordiv (total_seconds boot_delta) 3600%Q).

Definition uptime_minutes (boot_delta : Z) : Z :=
  py_int (py_floordiv (py_mod (total_seconds boot_delta) 3600%Q) 60%Q).

Definition uptime_str (h : host) : string :=
  let uptime_seconds := boot_time h in
  let current_time := datetime_now h in
  let boot_delta :=
    (current_time - datetime_fromtimestamp uptime_seconds)%Z in
  str_int (uptime_hours boot_delta) +:+ " hrs, " +:+
  str_int (uptime_minutes boot_delta) +:+ " mins".

(** [os.environ.get("DESKTOP_SESSION") or os.environ.get("XDG_SESSION_TYPE")] *)
Definition window_manager (h : host) : pyval :=
  py_or (environ h !! "DESKTOP_SESSION") (environ h !! "XDG_SESSION_TYPE").

(** [x / (1024**3)] *)
Definition gib (bytes : Z) : Q := (inject_Z bytes / inject_Z (1024 ^ 3))%Q.

(** ** richfetch.py *)

Module Richfetch.

Record Namespace : Type :=
  { show_public_ip : bool; show_private_ip : bool }.

(** [action="store_true"]: a flag that is not given is [False]. *)
Definition no_flags : Namespace :=
  {| show_public_ip := false; show_private_ip := false |}.

Definition get_public_ip : M (option string) :=
  try_except
    (response ← requests_get "https://api.ipify.org?format=json";
     raise_for_status response ;;
     body ← response_json response;
     ip ← json_getitem body "ip";
     mret (Some ip))
    [ (is_RequestException, fun e =>
         print ("Error retrieving public IP address: " +:+ exn_msg e) ;;
         mret None);
      (is_Exception, fun e =>
         print ("Unexpected error: " +:+ exn_msg e) ;;
         mret None) ].

Definition get_private_ip : M (option string) :=
  try_except
    (s ← socket_socket;
     socket_connect s "8.8.8.8" 80 ;;
     ip ← socket_getsockname s;
     socket_close s ;;
     mret (Some ip))
    [ (is_socket_error, fun e =>
         print ("Error retrieving local IP address: " +:+ exn_msg e) ;;
         mret None);
      (is_Exception, fun e =>
         print ("Unexpected error: " +:+ exn_msg e) ;;
         mret None) ].

Definition sensors : list string :=
  [ "coretemp"; "k10temp"; "cpu-thermal"; "lm_sensors"; "asus-nb"; "lm75";
    "acpitz" ].

(** The [for sensor in sensors] loop of [get_cpu_temperature]. *)
Fixpoint get_cpu_temperature_loop (all_temperatures : gmap string (list shwtemp))
    (names : list string) : option Q :=
  match names with
  | [] => None
  | sensor :: rest =>
      match all_temperatures !! sensor with
      | Some (t :: _) => Some (current t)
      | _ => get_cpu_temperature_loop all_temperatures rest
      end
  end.

Definition get_cpu_temperature (h : host) : option Q :=
  match sensors_temperatures h with
  | None => None
  | Some all_temperatures => get_cpu_temperature_loop all_temperatures sensors
  end.

Definition color_cpu_temp (temp : Q) : string :=
  if py_lt temp 60%Q then "green"
  else if py_lt temp 70%Q then "yellow"
  else "red".

Definition color_usage_percent (percent : Q) : string :=
  if py_lt percent 60%Q then "green"
  else if py_lt percent 80%Q then "yellow"
  else "red".

Section Termcolor.

(** [termcolor.colored(text, color)], [f"{x}"] and [f"{x:.2f}"] for a float
    [x] are library code; the program is read for any of them. *)
Variable colored : string -> string -> string.
Variable format_float : Q -> string.
Variable format_2f : Q -> string.

Definition logo_dict : pydict string :=
  dict_literal
    [ ("Alpine Linux", colored (utf8 0xF300) "blue");
      ("Arch Linux", colored (utf8 0xF08C7) "blue");
      ("Artix Linux", colored (utf8 0xF31F) "blue");
      ("CentOS Stream 9", colored (utf8 0xEF3D) "yellow");
      ("Debian GNU/Linux 11 Bullseye", colored (utf8 0xF306) "red");
      ("Deepin", colored (utf8 0xF321) "blue");
      ("Elementary OS 7: Loki", colored (utf8 0xF309) "blue");
      ("EndeavourOS", colored (utf8 0xF322) "magenta");
      ("Fedora Linux", colored (utf8 0xF30A) "blue");
      ("FreeBSD", colored (utf8 0xF28F) "red");
      ("Parabola GNU/Linux-libre", colored (utf8 0xF340) "blue");
      ("Garuda Linux", colored (utf8 0xF337) "yellow");
      ("Gentoo Linux", colored (utf8 0xF08E8) "white");
      ("Hyperbola GNU/Linux-libre", colored (utf8 0xF33A) "blue");
      ("Kali Linux", colored (utf8 0xF327) "blue");
      ("KDE Neon", colored (utf8 0xF331) "blue");
      ("Kubuntu", colored (utf8 0xF333) "blue");
      ("Linux Mint 21 Cinnamon", colored (utf8 0xF08ED) "green");
      ("Lubuntu", colored (utf8 0xF363) "blue");
      ("macOS", colored (utf8 0xE711) "white");
      ("Mageia", colored (utf8 0xF310) "blue");
      ("Manjaro Linux", colored (utf8 0xF312) "green");
      ("MX Linux", colored (utf8 0xF33F) "white");
      ("NixOS", colored (utf8 0xF313) "blue");
      ("openSUSE Leap 15.4", colored (utf8 0xF314) "green");
      ("openSUSE Tumbleweed", colored (utf8 0xF314) "green");
      ("Parrot Security OS", colored (utf8 0xF329) "green");
      ("Pop!_OS 22.04", colored (utf8 0xF32A) "blue");
      ("PostmarketOS", colored (utf8 0xF374) "green");
      ("Puppy Linux", colored (utf8 0xF341) "white");
      ("Qubes OS", colored (utf8 0xF342) "blue");
      ("Raspberry Pi OS", colored (utf8 0xEF5C) "red");
      ("Red Hat Enterprise Linux", colored "Red Hat Enterprise Linux" "red");
      ("Slackware Linux", colored (utf8 0xF318) "blue");
      ("Solus", colored (utf8 0xF32D) "blue");
      ("Tails", colored (utf8 0xF343) "magenta");
      ("Ubuntu 22.04 LTS", colored (utf8 0xE73A) "yellow");
      ("Ubuntu Budgie", colored (utf8 0xF320) "magenta");
      ("Vanilla OS", colored (utf8 0xF366) "yellow");
      ("Void Linux", colored (utf8 0xF32E) "green");
      ("Windows", colored (utf8 0xE70F) "blue");
      ("Xubuntu", colored (utf8 0xF368) "blue");
      ("Zorin OS", colored (utf8 0xF32F) "blue") ].

Definition get_os_logo (os_name : string) : string :=
  dict_get_default os_name (colored (utf8 0xE712) "yellow") logo_dict.

Definition color_line : string :=
  let colors := ["red"; "yellow"; "green"; "blue"; "cyan"; "magenta"] in
  fold_left
    (fun colored_line color =>
       colored_line +:+ colored (utf8 0xEB8A +:+ " ") color)
    colors "".

Definition dynamic_color_line : string :=
  let colors := ["red"; "yellow"; "green"; "blue"; "cyan"; "magenta"] in
  let symbols :=
    [ utf8 0xF169D; utf8 0xF169F; utf8 0xF16A3; utf8 0xF06A9; utf8 0xF1719;
      utf8 0xF16A5 ] in
  fold_left
    (fun colored_line i =>
       let colored_symbol := colored (nth i symbols "") (nth i colors "") in
       colored_line +:+ (colored_symbol +:+ " "))
    (seq 0 (length colors)) "".

(** [psutil.sensors_battery().percent] and [.power_plugged]: an attribute
    of [None] raises [AttributeError]. *)
Definition battery_percent (b : option sbattery) : M Q :=
  match b with
  | Some b => mret (percent b)
  | None =>
      raise (Exn AttributeError "'NoneType' object has no attribute 'percent'")
  end.

Definition battery_power_plugged (b : option sbattery) : M (option bool) :=
  match b with
  | Some b => mret (power_plugged b)
  | None =>
      raise (Exn AttributeError
               "'NoneType' object has no attribute 'power_plugged'")
  end.

(** The truth value of [plugged]: [None] is falsy. *)
Definition truthy (b : option bool) : bool :=
  match b with
  | Some true => true
  | _ => false
  end.

Definition usage_str (u : usage) : string :=
  format_2f (gib (used u)) +:+ " / " +:+ format_2f (gib (total u)) +:+
  " GB (" +:+ format_2f (usage_percent u) +:+ "%)".

Definition get_system_info (args : Namespace) : M (pydict pyval) :=
  h ← ask;
  (* OS name and ver *)
  let os_type := platform_system h in
  let os :=
    if String.eqb os_type "Darwin" then
      ("macos " +:+ mac_ver h, get_os_logo "macOS")
    else if String.eqb os_type "Windows" then
      ("Windows " +:+ win32_ver h, get_os_logo "Windows")
    else
      (os_release_PRETTY_NAME h, get_os_logo (os_release_PRETTY_NAME h)) in
  let os_name := fst os in
  let os_logo := snd os in
  (* Username and hostname *)
  let username := getlogin h in
  let hostname := nodename h in
  (* Uptime *)
  let uptime_str := uptime_str h in
  (* Window Manager (WM) *)
  let wm := window_manager h in
  (* CPU name *)
  let cpu_name := brand_raw h in
  let cpu_per := cpu_percent h in
  let cpu_usage_color := color_usage_percent cpu_per in
  (* Fetching temp *)
  let temp := get_cpu_temperature h in
  let temp_str :=
    match temp with
    | Some temp => Some (format_float temp +:+ utf8 0xF0504)
    | None => None
    end in
  let temp_color :=
    match temp with
    | Some temp => color_cpu_temp temp
    | None => "red"
    end in
  (* Battery *)
  battery ← try_except
    (p ← battery_percent (sensors_battery h);
     mret (Some (str_int (py_round p) +:+ "%")))
    [ (is_AttributeError, fun _ => mret None) ];
  plugged ← try_except
    (battery_power_plugged (sensors_battery h))
    [ (is_AttributeError, fun _ => mret None) ];
  let battery_logo := if truthy plugged then utf8 0xF0084 else utf8 0xF12A3 in
  (* Getting ip addresses *)
  private_ip ← (if show_private_ip args then get_private_ip else mret None);
  public_ip ← (if show_public_ip args then get_public_ip else mret None);
  (* Disk space *)
  let disk_usage_str := usage_str (disk_usage h) in
  let disk_usage_color := color_usage_percent (usage_percent (disk_usage h)) in
  (* RAM space *)
  let ram_usage_str := usage_str (virtual_memory h) in
  let ram_usage_color :=
    color_usage_percent (usage_percent (virtual_memory h)) in
  (* Colors *)
  let colored_line := dynamic_color_line in
  let display :=
    dict_literal
      [ (colored (utf8 0xF415) "green",
         Some (colored (username +:+ "@" +:+ hostname) "green"));
        (os_logo, Some os_name);
        (colored (utf8 0xEC19) "blue", Some cpu_name);
        (colored (utf8 0xEC19) cpu_usage_color,
         Some (format_float cpu_per +:+ "%")) ] in
  let display :=
    if is_not_None temp_str then
      dict_update display
        (dict_literal [ (colored (utf8 0xF2C9) temp_color, temp_str) ])
    else display in
  let display :=
    if is_not_None battery then
      dict_update display
        (dict_literal [ (colored battery_logo "green", battery) ])
    else display in
  let display :=
    dict_update display
      (dict_literal
         [ (colored (utf8 0xF0A07) "red", wm);
           (colored (utf8 0xF252) "magenta", Some uptime_str);
           (colored (utf8 0xE266) ram_usage_color, Some ram_usage_str);
           (colored (utf8 0xF0C7) disk_usage_color, Some disk_usage_str) ]) in
  let display :=
    if is_not_None private_ip then
      dict_update display
        (dict_literal [ (colored (utf8 0xF0A69) "green", private_ip) ])
    else display in
  let display :=
    if is_not_None public_ip then
      dict_update display
        (dict_literal [ (colored (utf8 0xF0469) "green", public_ip) ])
    else display in
  let display := dict_update display (dict_literal [ (" ", Some colored_line) ]) in
  mret display.

Definition main (args : Namespace) : M unit :=
  system_info ← get_system_info args;
  print "" ;;
  for_each system_info
    (fun item => print ("  " +:+ fst item +:+ "  " +:+ format_value (snd item))) ;;
  print "".

End Termcolor.

End Richfetch.

(** ** fetch.py *)

Module Fetch.

Definition get_public_address : M (option string) :=
  try_except
    (response ← requests_get "https://api.ipify.org?format=json";
     raise_for_status response ;;
     body ← response_json response;
     ip ← json_getitem body "ip";
     mret (Some ip))
    [ (is_Exception, fun _ => mret None) ].

Definition get_local_address : M (option string) :=
  try_except
    (s ← socket_socket;
     socket_connect s "8.8.8.8" 80 ;;
     ip ← socket_getsockname s;
     socket_close s ;;
     mret (Some ip))
    [ (is_Exception, fun _ => mret None) ].

(** [psutil.sensors_temperatures()[['coretemp']][[0]].current] *)
Definition coretemp_current (h : host) : M Q :=
  match sensors_temperatures h with
  | None => raise (Exn TypeError "'NoneType' object is not subscriptable")
  | Some all_temperatures =>
      match all_temperatures !! "coretemp" with
      | None => raise (Exn KeyError "'coretemp'")
      | Some [] => raise (Exn IndexError "list index out of range")
      | Some (t :: _) => mret (current t)
      end
  end.

Section Termcolor.

Variable colored : string -> string -> string.
Variable format_float : Q -> string.
Variable format_2f : Q -> string.

Definition usage_str (u : usage) : string :=
  format_2f (gib (used u)) +:+ " / " +:+ format_2f (gib (total u)) +:+
  " GB (" +:+ format_2f (usage_percent u) +:+ "%)".

Definition get_system_info : M (pydict pyval) :=
  h ← ask;
  (* Username and hostname *)
  let username := getlogin h in
  let hostname := nodename h in
  (* Uptime *)
  let uptime_str := uptime_str h in
  (* Window Manager (WM) *)
  let wm := window_manager h in
  (* CPU name *)
  let cpu_name := brand_raw h in
  let cpu_per := cpu_percent h in
  (* Fetching temp *)
  temp ← coretemp_current h;
  let temp_str := format_float temp +:+ utf8 0xF0504 in
  (* Getting ip addresses *)
  local_address ← get_local_address;
  public_address ← get_public_address;
  (* Disk space *)
  let disk_usage_str := usage_str (disk_usage h) in
  (* RAM space *)
  let ram_usage_str := usage_str (virtual_memory h) in
  mret
    (dict_literal
       [ (colored (utf8 0xF415) "blue",
          Some (colored (username +:+ "@" +:+ hostname) "green"));
         (colored (utf8 0xEC19) "blue", Some cpu_name);
         (colored (utf8 0xEC19) "blue", Some (format_float cpu_per +:+ "%"));
         (colored (utf8 0xF2C9) "red", Some temp_str);
         (colored (utf8 0xF0A07) "blue", wm);
         (colored (utf8 0xF252) "yellow", Some uptime_str);
         (colored (utf8 0xE266) "red", Some ram_usage_str);
         (colored (utf8 0xF0C7) "magenta", Some disk_usage_str);
         (colored (utf8 0xF0A69) "yellow", local_address);
         (colored (utf8 0xF0A69) "green", public_address) ]).

Definition main : M unit :=
  system_info ← get_system_info;
  print_end nl ;;
  for_each system_info
    (fun item => print ("  " +:+ fst item +:+ "  " +:+ format_value (snd item))).

End Termcolor.

End Fetch.

(** The exit status of a run: an exception that reaches the top level ends
    the process with status 1. *)
Definition exit_code {A : Type} (r : exn + A) : Z :=
  match r with
  | inr _ => 0
  | inl _ => 1
  end.

(** What a run wrote to standard output. *)
Fixpoint stdout (t : trace) : string :=
  match t with
  | [] => ""
  | Stdout text :: t' => text +:+ stdout t'
  | _ :: t' => stdout t'
  end.

Definition is_network (e : event) : bool :=
  match e with
  | Stdout _ => false
  | _ => true
  end.

(** ** A terminal, and sample hosts

    [termcolor] wraps the text in an ANSI escape sequence when colors are
    on; this is the instance at which the statements below are tried. *)

Definition esc : string := String (ascii_of_N 27) "".

Definition COLORS : pydict string :=
  dict_literal
    [ ("red", "31"); ("green", "32"); ("yellow", "33"); ("blue", "34");
      ("magenta", "35"); ("cyan", "36"); ("white", "37") ].

Definition ansi_colored (text color : string) : string :=
  esc +:+ "[" +:+ dict_get_default color "" COLORS +:+ "m" +:+ text +:+
  esc +:+ "[0m".

(** The colors the two programs pass to [colored]. *)
Definition palette : list string :=
  [ "red"; "green"; "yellow"; "blue"; "magenta"; "cyan"; "white" ].

(** A terminal that shows colors: distinct (text, color) pairs are colored
    differently, and no colored text is the bare label of the color line. *)
Record color_terminal (colored : string -> string -> string) : Prop := {
  colored_inj : forall t1 c1 t2 c2,
    In c1 palette -> In c2 palette ->
    colored t1 c1 = colored t2 c2 -> t1 = t2 /\ c1 = c2;
  colored_not_blank : forall t c, In c palette -> colored t c <> " "
}.

(** Fixed-point notation with [d] digits after the point, rounding ties to
    even: [f"{x:.2f}"] at [d = 2]; at [d = 1] it is what [f"{x}"] prints for
    a float that has one decimal digit. *)
Fixpoint zeros (n : nat) : string :=
  match n with
  | O => ""
  | S n' => "0" +:+ zeros n'
  end.

Definition fixed_point (d : nat) (x : Q) : string :=
  let scale := (10 ^ Z.of_nat d)%Z in
  let n := py_round (x * inject_Z scale)%Q in
  let a := Z.abs n in
  let frac := str_int (a mod scale) in
  (if (n <? 0)%Z then "-" else "") +:+ str_int (a / scale) +:+ "." +:+
  zeros (d - String.length frac) +:+ frac.

Definition reading (name : string) (value : Q) : shwtemp :=
  {| label := name; current := value |}.

(** A Linux host of user [alice], 3 hours 45 minutes and 10 seconds after
    boot, by what differs between the samples. *)
Definition sample_host (pretty_name : string) (env : gmap string string)
    (temperatures : option (gmap string (list shwtemp)))
    (battery : option sbattery) (http : exn + response)
    (sock : exn + udp_socket) : host := {|
  platform_system := "Linux";
  mac_ver := "";
  win32_ver := "('', '', '', '')";
  os_release_PRETTY_NAME := pretty_name;
  getlogin := "alice";
  nodename := "box";
  environ := env;
  boot_time := 1700000000%Q;
  datetime_now := 1700013510000000%Z;
  brand_raw := "Intel(R) Core(TM) i7-8550U CPU @ 1.80GHz";
  cpu_percent := (25 # 2)%Q;
  sensors_temperatures := temperatures;
  sensors_battery := battery;
  disk_usage :=
    {| total := 536870912000; used := 268569673728;
       usage_percent := (5003 # 100)%Q |};
  virtual_memory :=
    {| total := 17179869184; used := 4294967296; usage_percent := 25%Q |};
  requests_get_result := http;
  socket_result := sock
|}.

Definition ipify_answer : exn + response :=
  inr {| status_error := None;
         json_result := inr (JObject {[ "ip" := "203.0.113.7" ]}) |}.

Definition routed_socket : exn + udp_socket :=
  inr {| connect_error := None; getsockname_result := inr "192.168.1.20" |}.

Definition intel_sensors : option (gmap string (list shwtemp)) :=
  Some {[ "acpitz" := [reading "" 40%Q];
          "coretemp" := [reading "Package id 0" 52%Q; reading "Core 0" 50%Q] ]}.

(** A laptop on the network. *)
Definition laptop : host :=
  sample_host "Arch Linux" {[ "DESKTOP_SESSION" := "sway" ]} intel_sensors
    (Some {| percent := (173 # 2)%Q; power_plugged := Some true |})
    ipify_answer routed_socket.


(** A desktop with an AMD processor: the only temperature sensor is
    [k10temp], there is no battery, and the session variables are not
    set. *)
Definition amd_desktop : host :=
  sample_host "Arch Linux" ∅ (Some {[ "k10temp" := [reading "Tctl" 45%Q] ]})
    None ipify_answer routed_socket.

(** The laptop with the network down: [connect] and [requests.get] raise. *)
Definition unreachable : exn := Exn OSError "[Errno 101] Network is unreachable".
Definition no_connection : exn := Exn RequestException "Connection refused".

Definition with_network (h : host) (http : exn + response)
    (sock : exn + udp_socket) : host := {|
  platform_system := platform_system h;
  mac_ver := mac_ver h;
  win32_ver := win32_ver h;
  os_release_PRETTY_NAME := os_release_PRETTY_NAME h;
  getlogin := getlogin h;
  nodename := nodename h;
  environ := environ h;
  boot_time := boot_time h;
  datetime_now := datetime_now h;
  brand_raw := brand_raw h;
  cpu_percent := cpu_percent h;
  sensors_temperatures := sensors_temperatures h;
  sensors_battery := sensors_battery h;
  disk_usage := disk_usage h;
  virtual_memory := virtual_memory h;
  requests_get_result := http;
  socket_result := sock
|}.


Definition offline_laptop : host :=
  with_network laptop (inl no_connection)
    (inr {| connect_error := Some unreachable;
            getsockname_result := inr "0.0.0.0" |}).


(** A host on which [getsockname] fails after a successful [connect]. *)
Definition unnamed_socket_laptop : host :=
  with_network laptop ipify_answer
    (inr {| connect_error := None; getsockname_result := inl unreachable |}).

Definition both_flags : Richfetch.Namespace :=
  {| Richfetch.show_public_ip := true; Richfetch.show_private_ip := true |}.


(** ** The report, as the specification describes it *)

(** The ways in which the public-IP call fails: the transport, the status
    of the response, a body that is not JSON, a JSON value without the
    [ip] field. *)
Inductive http_failure (h : host) : Prop :=
  | transport_error (e : exn) :
      requests_get_result h = inl e -> http_failure h
  | error_status (r : response) (e : exn) :
      requests_get_result h = inr r -> status_error r = Some e ->
      http_failure h
  | malformed_body (r : response) (e : exn) :
      requests_get_result h = inr r -> status_error r = None ->
      json_result r = inl e -> http_failure h
  | unexpected_shape (r : response) (j : json) :
      requests_get_result h = inr r -> status_error r = None ->
      json_result r = inr j ->
      match j with
      | JObject fields => fields !! "ip" = None
      | _ => True
      end ->
      http_failure h.

(** A sensor has a reading when the host lists it with at least one
    entry. *)
Definition has_reading (all : gmap string (list shwtemp)) (sensor : string)
    : bool :=
  match all !! sensor with
  | Some (_ :: _) => true
  | _ => false
  end.

(** One printed line of the report, and the lines of a display. *)
Definition report_line (item : string * pyval) : string :=
  "  " +:+ fst item +:+ "  " +:+ format_value (snd item).

Definition report_events (display : pydict pyval) : trace :=
  map (fun item => Stdout (report_line item +:+ nl)) display.

(** The value a lookup returned. *)
Definition returned {A : Type} (r : (exn + option A) * trace) : option A :=
  match fst r with
  | inr v => v
  | inl _ => None
  end.

(** An entry that is there only when its value is. *)
Definition optional_entry (k : string) (v : pyval) : list (string * pyval) :=
  match v with
  | Some _ => [(k, v)]
  | None => []
  end.

(** The glyphs of the labels of the rich report, the OS logo apart. *)
Definition label_glyphs : list string :=
  [ utf8 0xF415; utf8 0xEC19; utf8 0xF2C9; utf8 0xF0084; utf8 0xF12A3;
    utf8 0xF0A07; utf8 0xF252; utf8 0xE266; utf8 0xF0C7; utf8 0xF0A69;
    utf8 0xF0469 ].

Definition is_label_glyph (g : string) : bool :=
  existsb (String.eqb g) label_glyphs.

(** The three classes of the classifiers. *)
Definition classes : list string := [ "green"; "yellow"; "red" ].

(** A test that a list of (glyph, color) pairs has no pair twice. *)
Definition pair_eqb (x y : string * string) : bool :=
  String.eqb (fst x) (fst y) && String.eqb (snd x) (snd y).

Fixpoint nodupb (l : list (string * string)) : bool :=
  match l with
  | [] => true
  | x :: l' => negb (existsb (pair_eqb x) l') && nodupb l'
  end.


(** The labels of the entries the minimal report is left with. *)
Definition minimal_labels : list (string * string) :=
  [ (utf8 0xF415, "blue"); (utf8 0xEC19, "blue"); (utf8 0xF2C9, "red");
    (utf8 0xF0A07, "blue"); (utf8 0xF252, "yellow"); (utf8 0xE266, "red");
    (utf8 0xF0C7, "magenta"); (utf8 0xF0A69, "yellow");
    (utf8 0xF0A69, "green") ].

Section Report.

Variable colored : string -> string -> string.
Variable format_float : Q -> string.
Variable format_2f : Q -> string.

(** The name and the logo of the OS entry. *)
Definition os_name (h : host) : string :=
  if String.eqb (platform_system h) "Darwin" then "macos " +:+ mac_ver h
  else if String.eqb (platform_system h) "Windows" then
    "Windows " +:+ win32_ver h
  else os_release_PRETTY_NAME h.

Definition os_lookup_key (h : host) : string :=
  if String.eqb (platform_system h) "Darwin" then "macOS"
  else if String.eqb (platform_system h) "Windows" then "Windows"
  else os_release_PRETTY_NAME h.

Definition temperature_entry (h : host) : list (string * pyval) :=
  match Richfetch.get_cpu_temperature h with
  | Some temp =>
      [ (colored (utf8 0xF2C9) (Richfetch.color_cpu_temp temp),
         Some (format_float temp +:+ utf8 0xF0504)) ]
  | None => []
  end.

Definition battery_entry (h : host) : list (string * pyval) :=
  match sensors_battery h with
  | Some b =>
      [ (colored
           (if Richfetch.truthy (power_plugged b) then utf8 0xF0084
            else utf8 0xF12A3)
           "green",
         Some (str_int (py_round (percent b)) +:+ "%")) ]
  | None => []
  end.

(** The entries of the rich report in the order of the specification:
    identity, OS, CPU name, CPU load, temperature and battery when there,
    session manager, uptime, memory, disk, private and public IP when
    there, the color line. *)
Definition rich_entries (h : host) (private_ip public_ip : pyval)
    : list (string * pyval) :=
  [ (colored (utf8 0xF415) "green",
     Some (colored (getlogin h +:+ "@" +:+ nodename h) "green"));
    (Richfetch.get_os_logo colored (os_lookup_key h), Some (os_name h));
    (colored (utf8 0xEC19) "blue", Some (brand_raw h));
    (colored (utf8 0xEC19) (Richfetch.color_usage_percent (cpu_percent h)),
     Some (format_float (cpu_percent h) +:+ "%")) ]
  ++ temperature_entry h
  ++ battery_entry h
  ++ [ (colored (utf8 0xF0A07) "red", window_manager h);
       (colored (utf8 0xF252) "magenta", Some (uptime_str h));
       (colored (utf8 0xE266)
          (Richfetch.color_usage_percent (usage_percent (virtual_memory h))),
        Some (Richfetch.usage_str format_2f (virtual_memory h)));
       (colored (utf8 0xF0C7)
          (Richfetch.color_usage_percent (usage_percent (disk_usage h))),
        Some (Richfetch.usage_str format_2f (disk_usage h))) ]
  ++ optional_entry (colored (utf8 0xF0A69) "green") private_ip
  ++ optional_entry (colored (utf8 0xF0469) "green") public_ip
  ++ [ (" ", Some (Richfetch.dynamic_color_line colored)) ].


(** The items of the display of the minimal report, as [fetch.py] lists
    them. *)
Definition minimal_items (h : host) (temp : Q)
    (local_address public_address : pyval) : list (string * pyval) :=
  [ (colored (utf8 0xF415) "blue",
     Some (colored (getlogin h +:+ "@" +:+ nodename h) "green"));
    (colored (utf8 0xEC19) "blue", Some (brand_raw h));
    (colored (utf8 0xEC19) "blue", Some (format_float (cpu_percent h) +:+ "%"));
    (colored (utf8 0xF2C9) "red", Some (format_float temp +:+ utf8 0xF0504));
    (colored (utf8 0xF0A07) "blue", window_manager h);
    (colored (utf8 0xF252) "yellow", Some (uptime_str h));
    (colored (utf8 0xE266) "red",
     Some (Fetch.usage_str format_2f (virtual_memory h)));
    (colored (utf8 0xF0C7) "magenta",
     Some (Fetch.usage_str format_2f (disk_usage h)));
    (colored (utf8 0xF0A69) "yellow", local_address);
    (colored (utf8 0xF0A69) "green", public_address) ].

(** The entries the minimal report is left with, in its order: identity,
    CPU, temperature, session manager, uptime, memory, disk, private IP,
    public IP. *)
Definition minimal_entries (h : host) (temp : Q)
    (local_address public_address : pyval) : list (string * pyval) :=
  [ (colored (utf8 0xF415) "blue",
     Some (colored (getlogin h +:+ "@" +:+ nodename h) "green"));
    (colored (utf8 0xEC19) "blue", Some (format_float (cpu_percent h) +:+ "%"));
    (colored (utf8 0xF2C9) "red", Some (format_float temp +:+ utf8 0xF0504));
    (colored (utf8 0xF0A07) "blue", window_manager h);
    (colored (utf8 0xF252) "yellow", Some (uptime_str h));
    (colored (utf8 0xE266) "red",
     Some (Fetch.usage_str format_2f (virtual_memory h)));
    (colored (utf8 0xF0C7) "magenta",
     Some (Fetch.usage_str format_2f (disk_usage h)));
    (colored (utf8 0xF0A69) "yellow", local_address);
    (colored (utf8 0xF0A69) "green", public_address) ].

(** The (glyph, color) pairs of the labels of [rich_entries], the identity
    label, the OS logo and the bare label of the color line apart. *)
Definition rich_labels (h : host) (private_ip public_ip : pyval)
    : list (string * string) :=
  [ (utf8 0xEC19, "blue");
    (utf8 0xEC19, Richfetch.color_usage_percent (cpu_percent h)) ]
  ++ match Richfetch.get_cpu_temperature h with
     | Some temp => [ (utf8 0xF2C9, Richfetch.color_cpu_temp temp) ]
     | None => []
     end
  ++ match sensors_battery h with
     | Some b =>
         [ (if Richfetch.truthy (power_plugged b) then utf8 0xF0084
            else utf8 0xF12A3, "green") ]
     | None => []
     end
  ++ [ (utf8 0xF0A07, "red"); (utf8 0xF252, "magenta");
       (utf8 0xE266,
        Richfetch.color_usage_percent (usage_percent (virtual_memory h)));
       (utf8 0xF0C7,
        Richfetch.color_usage_percent (usage_percent (disk_usage h))) ]
  ++ match private_ip with
     | Some _ => [ (utf8 0xF0A69, "green") ]
     | None => []
     end
  ++ match public_ip with
     | Some _ => [ (utf8 0xF0469, "green") ]
     | None => []
     end.

Definition render_label (l : string * string) : string :=
  colored (fst l) (snd l).

End Report.

(** ** More hosts and measures of a trace *)

(** A host with another CPU name. *)
Definition with_brand_raw (h : host) (name : string) : host := {|
  platform_system := platform_system h;
  mac_ver := mac_ver h;
  win32_ver := win32_ver h;
  os_release_PRETTY_NAME := os_release_PRETTY_NAME h;
  getlogin := getlogin h;
  nodename := nodename h;
  environ := environ h;
  boot_time := boot_time h;
  datetime_now := datetime_now h;
  brand_raw := name;
  cpu_percent := cpu_percent h;
  sensors_temperatures := sensors_temperatures h;
  sensors_battery := sensors_battery h;
  disk_usage := disk_usage h;
  virtual_memory := virtual_memory h;
  requests_get_result := requests_get_result h;
  socket_result := socket_result h
|}.



(** [termcolor] with colors off: the text comes back as it is. *)
Definition plain_colored (text color : string) : string := text.

Definition is_http (e : event) : bool :=
  match e with
  | HttpGet _ => true
  | _ => false
  end.

Definition is_socket_event (e : event) : bool :=
  match e with
  | SocketCreate | SocketConnect _ _ | SocketGetsockname | SocketClose => true
  | _ => false
  end.

Definition count_http (log : trace) : nat :=
  length (List.filter is_http log).

(** ** Comparison of floats *)

Lemma py_lt_true (x y : Q) : py_lt x y = true <-> (x < y)%Q.
Proof.
  unfold py_lt. rewrite negb_true_iff.
  split; intros H.
  - apply Qnot_le_lt. intros Hle. apply Qle_bool_iff in Hle. congruence.
  - destruct (Qle_bool y x) eqn:E; [|reflexivity].
    apply Qle_bool_iff in E. exfalso. exact (Qlt_not_le _ _ H E).
Qed.

Lemma py_lt_false (x y : Q) : py_lt x y = false <-> (y <= x)%Q.
Proof.
  unfold py_lt. rewrite negb_false_iff. apply Qle_bool_iff.
Qed.

Lemma py_lt_cases (x y : Q) :
  (py_lt x y = true /\ (x < y)%Q) \/ (py_lt x y = false /\ (y <= x)%Q).
Proof.
  destruct (py_lt x y) eqn:E.
  - left. split; [reflexivity|]. now apply py_lt_true.
  - right. split; [reflexivity|]. now apply py_lt_false.
Qed.

(** Order facts about rationals against integer constants reduce to [Z]. *)
Ltac q_order :=
  repeat match goal with
         | H : _ /\ _ |- _ => destruct H
         | q : Q |- _ => destruct q
         end;
  unfold Qlt, Qle in *; cbn in *; lia.

(** C6: the usage classifier is green exactly below 60, yellow exactly on
    [60, 80) and red exactly from 80 on; 60 is yellow and 80 is red. *)
Theorem color_usage_percent_classes (p : Q) :
  (Richfetch.color_usage_percent p = "green" <-> (p < 60)%Q) /\
  (Richfetch.color_usage_percent p = "yellow" <-> (60 <= p)%Q /\ (p < 80)%Q) /\
  (Richfetch.color_usage_percent p = "red" <-> (80 <= p)%Q) /\
  Richfetch.color_usage_percent 60%Q = "yellow" /\
  Richfetch.color_usage_percent 80%Q = "red".
Proof.
  unfold Richfetch.color_usage_percent.
  destruct (py_lt_cases p 60%Q) as [[E1 H1]|[E1 H1]];
    destruct (py_lt_cases p 80%Q) as [[E2 H2]|[E2 H2]];
    rewrite ?E1, ?E2.
  all: repeat split; intros; try discriminate; try reflexivity; q_order.
Qed.

(** C7: the temperature classifier is green exactly below 60, yellow exactly
    on [60, 70) and red exactly from 70 on; 60 is yellow and 70 is red; at
    75 the two classifiers differ, so their breakpoints are not the same. *)
Theorem color_cpu_temp_classes (t : Q) :
  (Richfetch.color_cpu_temp t = "green" <-> (t < 60)%Q) /\
  (Richfetch.color_cpu_temp t = "yellow" <-> (60 <= t)%Q /\ (t < 70)%Q) /\
  (Richfetch.color_cpu_temp t = "red" <-> (70 <= t)%Q) /\
  Richfetch.color_cpu_temp 60%Q = "yellow" /\
  Richfetch.color_cpu_temp 70%Q = "red" /\
  Richfetch.color_cpu_temp 75%Q = "red" /\
  Richfetch.color_usage_percent 75%Q = "yellow".
Proof.
  unfold Richfetch.color_cpu_temp.
  destruct (py_lt_cases t 60%Q) as [[E1 H1]|[E1 H1]];
    destruct (py_lt_cases t 70%Q) as [[E2 H2]|[E2 H2]];
    rewrite ?E1, ?E2.
  all: repeat split; intros; try discriminate; try reflexivity; q_order.
Qed.

(** ** Uptime *)






(** ** Dictionaries *)

Lemma dict_set_fresh {V : Type} (k : string) (v : V) (d : pydict V) :
  ~ In k (dict_keys d) -> dict_set k v d = d ++ [(k, v)].
Proof.
  induction d as [|[k' v'] d IH]; intros Hk; [reflexivity|].
  cbn [dict_set]. destruct (String.eqb_spec k' k) as [->|Hne].
  - exfalso. apply Hk. now left.
  - cbn [app]. f_equal. apply IH. intros Hin. apply Hk. now right.
Qed.

Lemma dict_update_fresh {V : Type} (items d : pydict V) :
  List.NoDup (dict_keys (d ++ items)) -> dict_update d items = d ++ items.
Proof.
  revert d. induction items as [|[k v] items IH]; intros d Hnd.
  - now rewrite app_nil_r.
  - unfold dict_update. cbn [fold_left fst snd].
    fold (dict_update (dict_set k v d) items).
    assert (Hfresh : ~ In k (dict_keys d)).
    { unfold dict_keys in *. rewrite map_app in Hnd. cbn [map fst] in Hnd.
      apply List.NoDup_remove_2 in Hnd. intros Hin. apply Hnd.
      apply in_or_app. now left. }
    rewrite (dict_set_fresh k v d Hfresh).
    replace (d ++ (k, v) :: items) with ((d ++ [(k, v)]) ++ items)
      by now rewrite <- app_assoc.
    apply IH. now rewrite <- app_assoc.
Qed.

Lemma dict_literal_fresh {V : Type} (items : pydict V) :
  List.NoDup (dict_keys items) -> dict_literal items = items.
Proof. intros H. unfold dict_literal. now rewrite dict_update_fresh. Qed.

Lemma dict_get_In {V : Type} (k : string) (v : V) (d : pydict V) :
  dict_get k d = Some v -> In (k, v) d.
Proof.
  induction d as [|[k' v'] d IH]; cbn [dict_get]; [discriminate|].
  destruct (String.eqb_spec k' k) as [->|Hne].
  - intros [= ->]. now left.
  - intros H. right. now apply IH.
Qed.


Lemma dict_get_NoDup {V : Type} (k : string) (v : V) (d : pydict V) :
  List.NoDup (dict_keys d) -> In (k, v) d -> dict_get k d = Some v.
Proof.
  induction d as [|[k' v'] d IH]; intros Hnd Hin; [destruct Hin|].
  cbn [dict_keys map fst] in Hnd. cbn [dict_get].
  destruct Hin as [[= -> ->]|Hin].
  - now rewrite String.eqb_refl.
  - destruct (String.eqb_spec k' k) as [->|Hne].
    + exfalso. apply List.NoDup_cons_iff in Hnd as [Hk _]. apply Hk.
      change k with (fst (k, v)). now apply in_map.
    + apply IH; [|assumption]. now apply List.NoDup_cons_iff in Hnd as [_ ?].
Qed.

(** A literal that names a key twice keeps the first place and the second
    value. *)
Lemma dict_literal_replace {V : Type} (a : string * V) (k : string)
    (v v' : V) (rest : pydict V) :
  String.eqb (fst a) k = false ->
  dict_literal (a :: (k, v) :: (k, v') :: rest)
  = dict_update [a; (k, v')] rest.
Proof.
  intros Hne. destruct a as [ka va]. cbn [fst] in Hne.
  unfold dict_literal, dict_update. cbn [fold_left dict_set fst snd].
  rewrite Hne. cbn [dict_set]. now rewrite Hne, String.eqb_refl.
Qed.

Lemma keys_app {V : Type} (d d' : pydict V) :
  dict_keys (d ++ d') = dict_keys d ++ dict_keys d'.
Proof. apply map_app. Qed.

Lemma NoDup_keys_prefix {V : Type} (d d' : pydict V) :
  List.NoDup (dict_keys (d ++ d')) -> List.NoDup (dict_keys d).
Proof. rewrite keys_app. apply List.NoDup_app_remove_r. Qed.

Lemma dict_update_literal_fresh {V : Type} (d items : pydict V) :
  List.NoDup (dict_keys (d ++ items)) ->
  dict_update d (dict_literal items) = d ++ items.
Proof.
  intros H. rewrite dict_literal_fresh; [now apply dict_update_fresh|].
  rewrite keys_app in H. now apply List.NoDup_app_remove_l in H.
Qed.

(** [if v is not None: d.update({k: v})] *)
Lemma guarded_update_fresh (d : pydict pyval) (k : string) (v : pyval) :
  List.NoDup (dict_keys (d ++ optional_entry k v)) ->
  (if is_not_None v then dict_update d (dict_literal [(k, v)]) else d)
    = d ++ optional_entry k v.
Proof.
  destruct v as [x|]; cbn [is_not_None optional_entry]; intros H.
  - now apply dict_update_literal_fresh.
  - now rewrite app_nil_r.
Qed.

(** The way [get_system_info] fills its display: when the keys are distinct
    the updates append, in the order of the program text. *)
Lemma display_fresh (base middle last : pydict pyval)
    (kt kb kp ku : string) (vt vb vp vu : pyval) :
  List.NoDup
    (dict_keys
       (base ++ optional_entry kt vt ++ optional_entry kb vb ++ middle ++
        optional_entry kp vp ++ optional_entry ku vu ++ last)) ->
  dict_update
    (let d :=
       dict_update
         (let d :=
            let d := dict_literal base in
            if is_not_None vt then dict_update d (dict_literal [(kt, vt)])
            else d in
          if is_not_None vb then dict_update d (dict_literal [(kb, vb)])
          else d)
         (dict_literal middle) in
     let d :=
       if is_not_None vp then dict_update d (dict_literal [(kp, vp)])
       else d in
     if is_not_None vu then dict_update d (dict_literal [(ku, vu)]) else d)
    (dict_literal last)
  = base ++ optional_entry kt vt ++ optional_entry kb vb ++ middle ++
    optional_entry kp vp ++ optional_entry ku vu ++ last.
Proof.
  intros H. cbv zeta.
  rewrite (dict_literal_fresh base) by now apply NoDup_keys_prefix in H.
  rewrite !app_assoc in H |- *.
  pose proof (NoDup_keys_prefix _ _ H) as H5.
  pose proof (NoDup_keys_prefix _ _ H5) as H4.
  pose proof (NoDup_keys_prefix _ _ H4) as H3.
  pose proof (NoDup_keys_prefix _ _ H3) as H2.
  pose proof (NoDup_keys_prefix _ _ H2) as H1.
  rewrite (guarded_update_fresh base kt vt H1).
  rewrite (guarded_update_fresh _ kb vb H2).
  rewrite (dict_update_literal_fresh _ middle H3).
  rewrite (guarded_update_fresh _ kp vp H4).
  rewrite (guarded_update_fresh _ ku vu H5).
  now apply dict_update_literal_fresh.
Qed.

(** ** The collectors *)

Ltac run_M :=
  unfold mbind, M_bind, mret, M_ret, ask, emit, raise, print, print_end;
  cbn [fst snd find is_Exception is_RequestException is_socket_error
       is_AttributeError exn_cls].

(** The temperature loop answers with the first sensor of the list that has
    a reading. *)
Lemma get_cpu_temperature_loop_first (all : gmap string (list shwtemp))
    (before after : list string) (sensor : string) (t : shwtemp)
    (ts : list shwtemp) :
  forallb (fun s => negb (has_reading all s)) before = true ->
  all !! sensor = Some (t :: ts) ->
  Richfetch.get_cpu_temperature_loop all (before ++ sensor :: after)
    = Some (current t).
Proof.
  intros Hb Hs. induction before as [|s before IH]; cbn.
  - now rewrite Hs.
  - cbn in Hb. apply andb_true_iff in Hb as [Hs' Hb].
    unfold has_reading in Hs'.
    destruct (all !! s) as [[|? ?]|]; try discriminate; now apply IH.
Qed.

Lemma get_cpu_temperature_loop_none (all : gmap string (list shwtemp))
    (names : list string) :
  forallb (fun s => negb (has_reading all s)) names = true ->
  Richfetch.get_cpu_temperature_loop all names = None.
Proof.
  induction names as [|s names IH]; cbn; [reflexivity|].
  intros Hb. apply andb_true_iff in Hb as [Hs Hb].
  unfold has_reading in Hs.
  destruct (all !! s) as [[|? ?]|]; try discriminate; now apply IH.
Qed.

(** The private-IP lookups: what they return and what they leave in the
    trace, by the step at which the socket fails. *)
Lemma get_private_ip_ok (h : host) (s : udp_socket) (ip : string) (t : trace) :
  socket_result h = inr s -> connect_error s = None ->
  getsockname_result s = inr ip ->
  Richfetch.get_private_ip h t
    = (inr (Some ip),
       t ++ [SocketCreate; SocketConnect "8.8.8.8" 80; SocketGetsockname;
             SocketClose]).
Proof.
  intros H1 H2 H3.
  unfold Richfetch.get_private_ip, try_except, socket_socket, socket_connect,
    socket_getsockname, socket_close.
  run_M. rewrite H1. run_M. rewrite H2. run_M. rewrite H3.
  now rewrite <- !app_assoc.
Qed.

Lemma get_private_ip_connect_raises (h : host) (s : udp_socket) (e : exn)
    (t : trace) :
  socket_result h = inr s -> connect_error s = Some e ->
  exists line,
    Richfetch.get_private_ip h t
      = (inr None,
         t ++ [SocketCreate; SocketConnect "8.8.8.8" 80; Stdout line]).
Proof.
  intros H1 H2.
  unfold Richfetch.get_private_ip, try_except, socket_socket, socket_connect.
  run_M. rewrite H1. run_M. rewrite H2. run_M.
  destruct (is_socket_error e); run_M; eexists; now rewrite <- !app_assoc.
Qed.

Lemma get_local_address_connect_raises (h : host) (s : udp_socket) (e : exn)
    (t : trace) :
  socket_result h = inr s -> connect_error s = Some e ->
  Fetch.get_local_address h t
    = (inr None, t ++ [SocketCreate; SocketConnect "8.8.8.8" 80]).
Proof.
  intros H1 H2.
  unfold Fetch.get_local_address, try_except, socket_socket, socket_connect.
  run_M. rewrite H1. run_M. rewrite H2. run_M.
  now rewrite <- !app_assoc.
Qed.

(** A private-IP lookup always returns, and writes nothing but messages
    after its socket calls. *)
Lemma get_private_ip_returns (h : host) (t : trace) :
  exists v log, Richfetch.get_private_ip h t = (inr v, t ++ log).
Proof.
  unfold Richfetch.get_private_ip, try_except, socket_socket, socket_connect,
    socket_getsockname, socket_close.
  run_M.
  destruct (socket_result h) as [e|s]; run_M.
  2: destruct (connect_error s) as [e|]; run_M.
  3: destruct (getsockname_result s) as [e|ip]; run_M.
  all: try destruct (is_socket_error e); run_M.
  all: eexists _, _; rewrite <- ?app_assoc;
    first [reflexivity | now rewrite app_nil_r].
Qed.

Lemma get_local_address_returns (h : host) (t : trace) :
  exists v log, Fetch.get_local_address h t = (inr v, t ++ log).
Proof.
  unfold Fetch.get_local_address, try_except, socket_socket, socket_connect,
    socket_getsockname, socket_close.
  run_M.
  destruct (socket_result h) as [e|s]; run_M.
  2: destruct (connect_error s) as [e|]; run_M.
  3: destruct (getsockname_result s) as [e|ip]; run_M.
  all: eexists _, _; rewrite <- ?app_assoc;
    first [reflexivity | now rewrite app_nil_r].
Qed.

(** A public-IP lookup always returns; after the request it writes at most
    a message. *)
Lemma get_public_ip_returns (h : host) (t : trace) :
  exists v log,
    Richfetch.get_public_ip h t
      = (inr v, t ++ HttpGet "https://api.ipify.org?format=json" :: log) /\
    forallb (fun e => negb (is_network e)) log = true.
Proof.
  unfold Richfetch.get_public_ip, try_except, requests_get, raise_for_status,
    response_json, json_getitem.
  run_M.
  destruct (requests_get_result h) as [e|r]; run_M.
  2: destruct (status_error r) as [e|]; run_M.
  3: destruct (json_result r) as [e|[fields| |]]; run_M.
  4: destruct (fields !! "ip") as [ip|]; run_M.
  all: try destruct (is_RequestException e); run_M.
  all: eexists _, _; rewrite <- ?app_assoc; split; reflexivity.
Qed.

Lemma get_public_address_returns (h : host) (t : trace) :
  exists v,
    Fetch.get_public_address h t
      = (inr v, t ++ [HttpGet "https://api.ipify.org?format=json"]).
Proof.
  unfold Fetch.get_public_address, try_except, requests_get, raise_for_status,
    response_json, json_getitem.
  run_M.
  destruct (requests_get_result h) as [e|r]; run_M.
  2: destruct (status_error r) as [e|]; run_M.
  3: destruct (json_result r) as [e|[fields| |]]; run_M.
  4: destruct (fields !! "ip") as [ip|]; run_M.
  all: eexists; reflexivity.
Qed.

(** When the call fails the lookups return [None]; the rich one writes one
    line of message. *)
Lemma get_public_ip_failure (h : host) (t : trace) :
  http_failure h ->
  exists line,
    Richfetch.get_public_ip h t
      = (inr None,
         t ++ [HttpGet "https://api.ipify.org?format=json";
               Stdout (line +:+ nl)]).
Proof.
  unfold Richfetch.get_public_ip, try_except, requests_get, raise_for_status,
    response_json, json_getitem.
  intros [e H1|r e H1 H2|r e H1 H2 H3|r j H1 H2 H3 H4]; run_M;
    rewrite H1; run_M; rewrite ?H2; run_M; rewrite ?H3; run_M.
  4: destruct j as [fields| |]; [rewrite H4|..]; run_M.
  all: try destruct (is_RequestException e); run_M.
  all: eexists; rewrite <- ?app_assoc; reflexivity.
Qed.

Lemma get_public_address_failure (h : host) (t : trace) :
  http_failure h ->
  Fetch.get_public_address h t
    = (inr None, t ++ [HttpGet "https://api.ipify.org?format=json"]).
Proof.
  unfold Fetch.get_public_address, try_except, requests_get, raise_for_status,
    response_json, json_getitem.
  intros [e H1|r e H1 H2|r e H1 H2 H3|r j H1 H2 H3 H4]; run_M;
    rewrite H1; run_M; rewrite ?H2; run_M; rewrite ?H3; run_M.
  4: destruct j as [fields| |]; [rewrite H4|..]; run_M.
  all: reflexivity.
Qed.

(** ** Printing *)

Lemma run_bind {A B : Type} (m : M A) (f : A -> M B) (h : host) (t : trace) :
  (m ≫= f) h t
  = match m h t with
    | (inr x, t') => f x h t'
    | (inl e, t') => (inl e, t')
    end.
Proof. reflexivity. Qed.

Lemma run_print (s : string) (h : host) (t : trace) :
  print s h t = (inr tt, t ++ [Stdout (s +:+ nl)]).
Proof. reflexivity. Qed.

Lemma for_each_print (display : pydict pyval) (h : host) (t : trace) :
  for_each display (fun item => print (report_line item)) h t
  = (inr tt, t ++ report_events display).
Proof.
  revert t. induction display as [|item display IH]; intros t.
  - cbn. now rewrite app_nil_r.
  - cbn [for_each report_events map].
    rewrite run_bind, run_print, IH. now rewrite <- app_assoc.
Qed.

Lemma rich_main_run (colored : string -> string -> string)
    (format_float format_2f : Q -> string) (args : Richfetch.Namespace)
    (h : host) (t t' : trace) (display : pydict pyval) :
  Richfetch.get_system_info colored format_float format_2f args h t
    = (inr display, t') ->
  Richfetch.main colored format_float format_2f args h t
    = (inr tt, t' ++ [Stdout nl] ++ report_events display ++ [Stdout nl]).
Proof.
  intros E. unfold Richfetch.main.
  unfold mbind at 1. unfold M_bind at 1. rewrite E.
  change (fun item : string * pyval =>
            print ("  " +:+ fst item +:+ "  " +:+ format_value (snd item)))
    with (fun item => print (report_line item)).
  rewrite run_bind, run_print, run_bind, for_each_print, run_print.
  now rewrite <- !app_assoc.
Qed.

Lemma fetch_main_run (colored : string -> string -> string)
    (format_float format_2f : Q -> string) (h : host) (t t' : trace)
    (display : pydict pyval) :
  Fetch.get_system_info colored format_float format_2f h t
    = (inr display, t') ->
  Fetch.main colored format_float format_2f h t
    = (inr tt, t' ++ [Stdout nl] ++ report_events display).
Proof.
  intros E. unfold Fetch.main.
  unfold mbind at 1. unfold M_bind at 1. rewrite E.
  change (fun item : string * pyval =>
            print ("  " +:+ fst item +:+ "  " +:+ format_value (snd item)))
    with (fun item => print (report_line item)).
  rewrite run_bind. unfold print_end, emit. rewrite for_each_print.
  now rewrite <- !app_assoc.
Qed.

Lemma fetch_main_raises (colored : string -> string -> string)
    (format_float format_2f : Q -> string) (h : host) (t t' : trace)
    (e : exn) :
  Fetch.get_system_info colored format_float format_2f h t = (inl e, t') ->
  Fetch.main colored format_float format_2f h t = (inl e, t').
Proof.
  intros E. unfold Fetch.main.
  unfold mbind at 1. unfold M_bind at 1. now rewrite E.
Qed.

(** What a run of the minimal [get_system_info] returns when the
    temperature can be read, and what it raises when it cannot. *)
Lemma fetch_get_system_info_run (colored : string -> string -> string)
    (format_float format_2f : Q -> string) (h : host) (t : trace) (temp : Q) :
  Fetch.coretemp_current h h t = (inr temp, t) ->
  let r1 := Fetch.get_local_address h t in
  let r2 := Fetch.get_public_address h (snd r1) in
  Fetch.get_system_info colored format_float format_2f h t
  = (inr (dict_literal
            (minimal_items colored format_float format_2f h temp
               (returned r1) (returned r2))),
     snd r2).
Proof.
  intros Et r1 r2. subst r1 r2.
  destruct (get_local_address_returns h t) as (v1 & log & E1).
  destruct (get_public_address_returns h (t ++ log)) as (v2 & E2).
  rewrite E1. cbn [snd]. rewrite E2. unfold returned. cbn [fst snd].
  unfold Fetch.get_system_info.
  unfold mbind at 1. unfold M_bind at 1. unfold ask at 1.
  unfold mbind at 1. unfold M_bind at 1. rewrite Et.
  unfold mbind at 1. unfold M_bind at 1. rewrite E1.
  unfold mbind at 1. unfold M_bind at 1. rewrite E2.
  reflexivity.
Qed.

Lemma fetch_get_system_info_raises (colored : string -> string -> string)
    (format_float format_2f : Q -> string) (h : host) (t : trace) (e : exn) :
  Fetch.coretemp_current h h t = (inl e, t) ->
  Fetch.get_system_info colored format_float format_2f h t = (inl e, t).
Proof.
  intros Et. unfold Fetch.get_system_info.
  unfold mbind at 1. unfold M_bind at 1. unfold ask at 1.
  unfold mbind at 1. unfold M_bind at 1. now rewrite Et.
Qed.

(** ** The terminal *)

Lemma append_cons (x : ascii) (a b : string) :
  String x a +:+ b = String x (a +:+ b).
Proof. reflexivity. Qed.

Lemma length_append (a b : string) :
  String.length (a +:+ b) = String.length a + String.length b.
Proof.
  induction a as [|x a IH]; [reflexivity|].
  rewrite append_cons. cbn [String.length]. now rewrite IH.
Qed.

Lemma append_inv_tail (s a b : string) : a +:+ s = b +:+ s -> a = b.
Proof.
  revert b. induction a as [|x a IH]; intros [|y b] H.
  - reflexivity.
  - apply (f_equal String.length) in H.
    change ("" +:+ s) with s in H.
    rewrite length_append in H. cbn [String.length] in H. lia.
  - apply (f_equal String.length) in H.
    change ("" +:+ s) with s in H.
    rewrite length_append in H. cbn [String.length] in H. lia.
  - rewrite !append_cons in H. injection H as -> H. f_equal. now apply IH.
Qed.

Lemma ansi_colored_shape (text color : string) :
  In color palette ->
  exists d : ascii,
    ansi_colored text color
      = String (ascii_of_N 27) (String "[" (String "3" (String d
          (String "m" (text +:+ esc +:+ "[0m"))))) /\
    dict_get (String d "") [("1", "red"); ("2", "green"); ("3", "yellow");
                            ("4", "blue"); ("5", "magenta"); ("6", "cyan");
                            ("7", "white")] = Some color.
Proof.
  intros Hc. cbn in Hc.
  repeat (destruct Hc as [<-|Hc]; [eexists; split; reflexivity|]).
  destruct Hc.
Qed.

Lemma ansi_terminal : color_terminal ansi_colored.
Proof.
  split.
  - intros t1 c1 t2 c2 H1 H2 E.
    destruct (ansi_colored_shape t1 c1 H1) as (d1 & E1 & G1).
    destruct (ansi_colored_shape t2 c2 H2) as (d2 & E2 & G2).
    rewrite E1, E2 in E. injection E as Ed Et. subst d2.
    split; [now apply append_inv_tail in Et | congruence].
  - intros t c Hc E.
    destruct (ansi_colored_shape t c Hc) as (d & Ed & _).
    rewrite Ed in E. discriminate.
Qed.

(** ** The labels of the rich report are distinct *)

Lemma color_usage_percent_class (p : Q) :
  In (Richfetch.color_usage_percent p) classes.
Proof.
  unfold Richfetch.color_usage_percent, classes.
  destruct (py_lt p 60%Q); [|destruct (py_lt p 80%Q)]; cbn; tauto.
Qed.

Lemma color_cpu_temp_class (t : Q) : In (Richfetch.color_cpu_temp t) classes.
Proof.
  unfold Richfetch.color_cpu_temp, classes.
  destruct (py_lt t 60%Q); [|destruct (py_lt t 70%Q)]; cbn; tauto.
Qed.

Lemma classes_palette (c : string) : In c classes -> In c palette.
Proof. unfold classes, palette. cbn. tauto. Qed.

Lemma pair_eqb_eq (x y : string * string) : pair_eqb x y = true <-> x = y.
Proof.
  destruct x as [t1 c1], y as [t2 c2]. unfold pair_eqb. cbn [fst snd].
  rewrite andb_true_iff, !String.eqb_eq. split.
  - now intros [-> ->].
  - now intros [= -> ->].
Qed.

Lemma nodupb_sound (l : list (string * string)) :
  nodupb l = true -> List.NoDup l.
Proof.
  induction l as [|x l IH]; cbn [nodupb]; intros H.
  - apply List.NoDup_nil.
  - apply andb_true_iff in H as [Hx Hl]. apply List.NoDup_cons; [|now apply IH].
    intros Hin. apply negb_true_iff in Hx.
    assert (E : existsb (pair_eqb x) l = true).
    { apply existsb_exists. exists x. split; [assumption|].
      now apply pair_eqb_eq. }
    congruence.
Qed.

Section ColorTerminal.

Variable colored : string -> string -> string.
Variable format_float : Q -> string.
Variable format_2f : Q -> string.
Hypothesis terminal : color_terminal colored.

Lemma logo_dict_shape :
  Forall
    (fun v => exists g c,
       v = colored g c /\ is_label_glyph g = false /\ In c palette)
    (map snd (Richfetch.logo_dict colored)).
Proof.
  let d := eval vm_compute in (Richfetch.logo_dict colored) in
  change (Richfetch.logo_dict colored) with d.
  cbn [map snd].
  repeat (apply List.Forall_cons;
          [ eexists _, _; split; [reflexivity|];
            split; [vm_compute; reflexivity | cbn; tauto]
          | ]).
  apply List.Forall_nil.
Qed.

Lemma get_os_logo_shape (name : string) :
  exists g c,
    Richfetch.get_os_logo colored name = colored g c /\
    is_label_glyph g = false /\ In c palette.
Proof.
  unfold Richfetch.get_os_logo, dict_get_default.
  destruct (dict_get name (Richfetch.logo_dict colored)) as [v|] eqn:E.
  - apply dict_get_In in E. apply (in_map snd) in E. cbn [snd] in E.
    pose proof logo_dict_shape as HF.
    rewrite List.Forall_forall in HF. exact (HF v E).
  - eexists _, _. split; [reflexivity|].
    split; [vm_compute; reflexivity | cbn; tauto].
Qed.

Lemma render_label_inj (x y : string * string) :
  In (snd x) palette -> In (snd y) palette ->
  render_label colored x = render_label colored y -> x = y.
Proof.
  destruct x as [t1 c1], y as [t2 c2]. unfold render_label. cbn [fst snd].
  intros H1 H2 E.
  destruct (colored_inj _ terminal _ _ _ _ H1 H2 E) as [-> ->]. reflexivity.
Qed.

Lemma NoDup_render (ls : list (string * string)) :
  Forall (fun l => In (snd l) palette) ls -> List.NoDup ls ->
  List.NoDup (map (render_label colored) ls ++ [" "]).
Proof.
  intros Hp Hnd. induction Hnd as [|x ls Hx Hnd IH].
  - cbn. apply List.NoDup_cons; [intros []|apply List.NoDup_nil].
  - apply List.Forall_cons_iff in Hp as [Hpx Hp].
    cbn [map app]. apply List.NoDup_cons; [|now apply IH].
    intros Hin. apply in_app_or in Hin as [Hin|[Hin|[]]].
    + apply in_map_iff in Hin as (y & E & Hy).
      rewrite List.Forall_forall in Hp.
      apply render_label_inj in E; [|now apply Hp|assumption].
      subst y. contradiction.
    + symmetry in Hin. revert Hin. now apply (colored_not_blank _ terminal).
Qed.

(** The keys of a report: the logo is no label glyph, so it is enough that
    the other labels are distinct pairs. *)
Lemma keys_NoDup (og oc : string) (x : string * string)
    (ls : list (string * string)) :
  is_label_glyph og = false -> In oc palette ->
  Forall (fun l => In (snd l) palette) (x :: ls) ->
  forallb (fun l => is_label_glyph (fst l)) (x :: ls) = true ->
  nodupb (x :: ls) = true ->
  List.NoDup
    (render_label colored x :: colored og oc
       :: map (render_label colored) ls ++ [" "]).
Proof.
  intros Hog Hoc Hp Hg Hnd.
  apply nodupb_sound in Hnd.
  assert (Hlogo : ~ In (og, oc) (x :: ls)).
  { intros Hin. rewrite forallb_forall in Hg. apply Hg in Hin.
    cbn [fst] in Hin. congruence. }
  assert (Hall : List.NoDup (x :: (og, oc) :: ls)).
  { apply List.NoDup_cons_iff in Hnd as [Hx Hnd].
    apply List.NoDup_cons.
    - intros [E|Hin]; [|contradiction]. apply Hlogo. left. now symmetry.
    - apply List.NoDup_cons; [|assumption].
      intros Hin. apply Hlogo. now right. }
  apply (NoDup_render (x :: (og, oc) :: ls)); [|assumption].
  apply List.Forall_cons_iff in Hp as [Hpx Hp].
  repeat apply List.Forall_cons; assumption.
Qed.

Lemma rich_keys (h : host) (private_ip public_ip : pyval) :
  dict_keys (rich_entries colored format_float format_2f h private_ip public_ip)
  = render_label colored (utf8 0xF415, "green")
      :: Richfetch.get_os_logo colored (os_lookup_key h)
      :: map (render_label colored) (rich_labels h private_ip public_ip)
         ++ [" "].
Proof.
  unfold rich_entries, rich_labels, temperature_entry, battery_entry.
  destruct (Richfetch.get_cpu_temperature h), (sensors_battery h),
    private_ip, public_ip; reflexivity.
Qed.

Lemma rich_labels_distinct (h : host) (private_ip public_ip : pyval) :
  let ls := (utf8 0xF415, "green") :: rich_labels h private_ip public_ip in
  Forall (fun l => In (snd l) palette) ls /\
  forallb (fun l => is_label_glyph (fst l)) ls = true /\
  nodupb ls = true.
Proof.
  unfold rich_labels.
  pose proof (color_usage_percent_class (cpu_percent h)) as Hcu.
  pose proof (color_usage_percent_class (usage_percent (virtual_memory h)))
    as Hrc.
  pose proof (color_usage_percent_class (usage_percent (disk_usage h)))
    as Hdc.
  set (cu := Richfetch.color_usage_percent (cpu_percent h)) in *.
  set (rc := Richfetch.color_usage_percent (usage_percent (virtual_memory h)))
    in *.
  set (dc := Richfetch.color_usage_percent (usage_percent (disk_usage h)))
    in *.
  clearbody cu rc dc.
  destruct (Richfetch.get_cpu_temperature h) as [temp|].
  1: pose proof (color_cpu_temp_class temp) as Htc;
     set (tc := Richfetch.color_cpu_temp temp) in *; clearbody tc.
  all: destruct (sensors_battery h) as [[pc [[|]|]]|];
    cbn [Richfetch.truthy power_plugged];
    destruct private_ip, public_ip; cbn [app].
  all: split;
    [ repeat apply List.Forall_cons; cbn [snd];
      first [ apply List.Forall_nil | now apply classes_palette
            | cbn; tauto ]
    | ].
  all: destruct Hcu as [<-|[<-|[<-|[]]]]; split; vm_compute; reflexivity.
Qed.

Lemma rich_keys_NoDup (h : host) (private_ip public_ip : pyval) :
  List.NoDup
    (dict_keys
       (rich_entries colored format_float format_2f h private_ip public_ip)).
Proof.
  rewrite rich_keys.
  destruct (get_os_logo_shape (os_lookup_key h)) as (og & oc & -> & Hog & Hoc).
  destruct (rich_labels_distinct h private_ip public_ip) as (Hp & Hg & Hn).
  now apply keys_NoDup.
Qed.






(** The display of the minimal report: the second item is stored under the
    key of the third, which replaces its value. *)
Lemma minimal_keys (h : host) (temp : Q) (local_address public_address : pyval) :
  dict_keys
    (minimal_entries colored format_float format_2f h temp local_address
       public_address)
  = map (render_label colored) minimal_labels.
Proof. reflexivity. Qed.

Lemma minimal_keys_NoDup (h : host) (temp : Q)
    (local_address public_address : pyval) :
  List.NoDup
    (dict_keys
       (minimal_entries colored format_float format_2f h temp local_address
          public_address)).
Proof.
  rewrite minimal_keys.
  apply (List.NoDup_app_remove_r _ [" "]). apply NoDup_render.
  - unfold minimal_labels.
    repeat apply List.Forall_cons; try apply List.Forall_nil; cbn; tauto.
  - apply nodupb_sound. vm_compute. reflexivity.
Qed.

Lemma minimal_display (h : host) (temp : Q)
    (local_address public_address : pyval) :
  dict_literal
    (minimal_items colored format_float format_2f h temp local_address
       public_address)
  = minimal_entries colored format_float format_2f h temp local_address
      public_address.
Proof.
  pose proof (minimal_keys_NoDup h temp local_address public_address) as Hnd.
  assert (Hne : String.eqb (colored (utf8 0xF415) "blue")
                  (colored (utf8 0xEC19) "blue") = false).
  { apply String.eqb_neq. intros E.
    apply (colored_inj _ terminal) in E as [E _]; [|cbn; tauto..].
    vm_compute in E. discriminate E. }
  unfold minimal_items.
  rewrite dict_literal_replace by exact Hne.
  rewrite dict_update_fresh; [reflexivity|exact Hnd].
Qed.

(** What a run of [get_system_info] returns: the entries of the
    specification with the addresses the two lookups gave, when they were
    asked for. *)
Lemma rich_get_system_info_run (args : Richfetch.Namespace) (h : host)
    (t : trace) :
  let r1 :=
    (if Richfetch.show_private_ip args then Richfetch.get_private_ip
     else mret None) h t in
  let r2 :=
    (if Richfetch.show_public_ip args then Richfetch.get_public_ip
     else mret None) h (snd r1) in
  Richfetch.get_system_info colored format_float format_2f args h t
  = (inr (rich_entries colored format_float format_2f h
            (returned r1) (returned r2)),
     snd r2).
Proof.
  intros r1 r2. subst r1 r2. unfold Richfetch.get_system_info.
  set (m1 := if Richfetch.show_private_ip args then _ else _).
  set (m2 := if Richfetch.show_public_ip args then _ else _).
  change (if Richfetch.show_private_ip args then Richfetch.get_private_ip
          else mret None) with m1.
  change (if Richfetch.show_public_ip args then Richfetch.get_public_ip
          else mret None) with m2.
  assert (E1 : exists v1 t1, m1 h t = (inr v1, t1)).
  { subst m1. destruct (Richfetch.show_private_ip args).
    - destruct (get_private_ip_returns h t) as (v & log & ->). eauto.
    - eexists _, _. reflexivity. }
  destruct E1 as (v1 & t1 & E1).
  assert (E2 : exists v2 t2, m2 h t1 = (inr v2, t2)).
  { subst m2. destruct (Richfetch.show_public_ip args).
    - destruct (get_public_ip_returns h t1) as (v & log & -> & _). eauto.
    - eexists _, _. reflexivity. }
  destruct E2 as (v2 & t2 & E2).
  clearbody m1 m2. rewrite E1. cbn [snd]. rewrite E2.
  unfold returned. cbn [fst snd].
  pose proof (rich_keys_NoDup h v1 v2) as Hnd.
  unfold rich_entries, temperature_entry, battery_entry, os_name,
    os_lookup_key in Hnd |- *.
  unfold try_except, Richfetch.battery_percent, Richfetch.battery_power_plugged.
  run_M.
  destruct (Richfetch.get_cpu_temperature h) as [temp|];
    destruct (sensors_battery h) as [b|]; run_M.
  all: rewrite E1; cbn [fst snd]; rewrite E2; cbn [fst snd].
  all: f_equal; f_equal.
  all: destruct (String.eqb (platform_system h) "Darwin");
    [|destruct (String.eqb (platform_system h) "Windows")];
    cbn [fst snd].
  all: etransitivity; [apply display_fresh; exact Hnd | reflexivity].
Qed.

(** The usage classifier colors the CPU-load, memory and disk labels. *)
Lemma usage_colors_applied (h : host) (private_ip public_ip : pyval) :
  let d :=
    rich_entries colored format_float format_2f h private_ip public_ip in
  dict_get
    (colored (utf8 0xEC19) (Richfetch.color_usage_percent (cpu_percent h))) d
    = Some (Some (format_float (cpu_percent h) +:+ "%")) /\
  dict_get
    (colored (utf8 0xE266)
       (Richfetch.color_usage_percent (usage_percent (virtual_memory h)))) d
    = Some (Some (Richfetch.usage_str format_2f (virtual_memory h))) /\
  dict_get
    (colored (utf8 0xF0C7)
       (Richfetch.color_usage_percent (usage_percent (disk_usage h)))) d
    = Some (Some (Richfetch.usage_str format_2f (disk_usage h))).
Proof.
  cbv zeta.
  repeat split; (apply dict_get_NoDup; [apply rich_keys_NoDup|]);
    unfold rich_entries; rewrite !in_app_iff; cbn [In]; tauto.
Qed.










End ColorTerminal.

(** ** The temperature collector *)

(** The sensors are tried in the order of the list: the first one that has
    a reading answers, whatever the later ones hold. *)
Lemma get_cpu_temperature_first (h : host)
    (all : gmap string (list shwtemp)) (before after : list string)
    (sensor : string) (t : shwtemp) (ts : list shwtemp) :
  sensors_temperatures h = Some all ->
  Richfetch.sensors = before ++ sensor :: after ->
  forallb (fun s => negb (has_reading all s)) before = true ->
  all !! sensor = Some (t :: ts) ->
  Richfetch.get_cpu_temperature h = Some (current t).
Proof.
  intros Hall Hs Hb Ht. unfold Richfetch.get_cpu_temperature.
  rewrite Hall, Hs. now apply get_cpu_temperature_loop_first with (ts := ts).
Qed.

Lemma get_cpu_temperature_unavailable (h : host)
    (all : gmap string (list shwtemp)) :
  sensors_temperatures h = Some all ->
  forallb (fun s => negb (has_reading all s)) Richfetch.sensors = true ->
  Richfetch.get_cpu_temperature h = None.
Proof.
  intros Hall Hb. unfold Richfetch.get_cpu_temperature. rewrite Hall.
  now apply get_cpu_temperature_loop_none.
Qed.

Lemma sensors_priority :
  Richfetch.sensors
  = [ "coretemp"; "k10temp"; "cpu-thermal"; "lm_sensors"; "asus-nb"; "lm75";
      "acpitz" ].
Proof. reflexivity. Qed.

(** Without a [coretemp] sensor the minimal run raises before it prints. *)
Lemma minimal_run_raises_without_coretemp
    (colored : string -> string -> string) (format_float format_2f : Q -> string)
    (h : host) (all : gmap string (list shwtemp)) (t : trace) :
  sensors_temperatures h = Some all ->
  all !! "coretemp" = None ->
  Fetch.main colored format_float format_2f h t
    = (inl (Exn KeyError "'coretemp'"), t).
Proof.
  intros Hall Hc. apply fetch_main_raises, fetch_get_system_info_raises.
  unfold Fetch.coretemp_current. now rewrite Hall, Hc.
Qed.

(** C3: on a host whose only sensor is [k10temp] the collector of the rich
    variant answers with its reading and the rich run ends normally, but
    the minimal run reads [coretemp] without a check: it raises [KeyError]
    before it prints anything and the process ends with status 1. *)
Theorem minimal_run_needs_coretemp :
  Richfetch.get_cpu_temperature amd_desktop = Some 45%Q /\
  exit_code
    (fst (Richfetch.main ansi_colored (fixed_point 1) (fixed_point 2)
            Richfetch.no_flags amd_desktop [])) = 0%Z /\
  Fetch.main ansi_colored (fixed_point 1) (fixed_point 2) amd_desktop []
    = (inl (Exn KeyError "'coretemp'"), []) /\
  exit_code
    (fst (Fetch.main ansi_colored (fixed_point 1) (fixed_point 2)
            amd_desktop [])) = 1%Z.
Proof. repeat split; vm_compute; reflexivity. Qed.

(** The trace of a private-IP lookup in which [getsockname] raises has no
    [SocketClose] either. *)
Lemma get_local_address_getsockname_raises (h : host) (s : udp_socket)
    (e : exn) (t : trace) :
  socket_result h = inr s -> connect_error s = None ->
  getsockname_result s = inl e ->
  Fetch.get_local_address h t
    = (inr None,
       t ++ [SocketCreate; SocketConnect "8.8.8.8" 80; SocketGetsockname]).
Proof.
  intros H1 H2 H3.
  unfold Fetch.get_local_address, try_except, socket_socket, socket_connect,
    socket_getsockname.
  run_M. rewrite H1. run_M. rewrite H2. run_M. rewrite H3. run_M.
  now rewrite <- !app_assoc.
Qed.

(** C4: when [connect] or [getsockname] raises, both private-IP lookups
    return [None] with the socket created and never closed; the socket is
    closed on the path without error only. *)
Theorem socket_not_closed_on_error :
  Richfetch.get_private_ip offline_laptop []
    = (inr None,
       [ SocketCreate; SocketConnect "8.8.8.8" 80;
         Stdout ("Error retrieving local IP address: [Errno 101] Network is unreachable"
                 +:+ nl) ]) /\
  Fetch.get_local_address offline_laptop []
    = (inr None, [ SocketCreate; SocketConnect "8.8.8.8" 80 ]) /\
  Richfetch.get_private_ip unnamed_socket_laptop []
    = (inr None,
       [ SocketCreate; SocketConnect "8.8.8.8" 80; SocketGetsockname;
         Stdout ("Error retrieving local IP address: [Errno 101] Network is unreachable"
                 +:+ nl) ]) /\
  Fetch.get_local_address unnamed_socket_laptop []
    = (inr None, [ SocketCreate; SocketConnect "8.8.8.8" 80; SocketGetsockname ]) /\
  Richfetch.get_private_ip laptop []
    = (inr (Some "192.168.1.20"),
       [ SocketCreate; SocketConnect "8.8.8.8" 80; SocketGetsockname;
         SocketClose ]).
Proof. repeat split; vm_compute; reflexivity. Qed.

(** ** The statements at the sample hosts *)










(** ** The temperature collector, in full *)

Lemma get_cpu_temperature_loop_some (all : gmap string (list shwtemp))
    (names : list string) (v : Q) :
  Richfetch.get_cpu_temperature_loop all names = Some v ->
  exists before sensor after t ts,
    names = before ++ sensor :: after /\
    forallb (fun s => negb (has_reading all s)) before = true /\
    all !! sensor = Some (t :: ts) /\ current t = v.
Proof.
  induction names as [|s names IH]; cbn [Richfetch.get_cpu_temperature_loop];
    [discriminate|].
  destruct (all !! s) as [[|t ts]|] eqn:Es.
  3: intros H; destruct (IH H) as (before & sensor & after & t & ts & -> & Hb & Ht & Hv);
     exists (s :: before), sensor, after, t, ts;
     repeat split; try assumption; cbn [forallb]; unfold has_reading at 1;
     now rewrite Es.
  1: intros H; destruct (IH H) as (before & sensor & after & t & ts & -> & Hb & Ht & Hv);
     exists (s :: before), sensor, after, t, ts;
     repeat split; try assumption; cbn [forallb]; unfold has_reading at 1;
     now rewrite Es.
  intros [= <-]. exists [], s, names, t, ts. repeat split. exact Es.
Qed.

Lemma get_cpu_temperature_loop_none_inv (all : gmap string (list shwtemp))
    (names : list string) :
  Richfetch.get_cpu_temperature_loop all names = None ->
  forallb (fun s => negb (has_reading all s)) names = true.
Proof.
  induction names as [|s names IH]; cbn [Richfetch.get_cpu_temperature_loop];
    [reflexivity|].
  cbn [forallb]. unfold has_reading at 1.
  destruct (all !! s) as [[|t ts]|]; try discriminate; intros H;
    now rewrite (IH H).
Qed.

(** X1: the collector returns a value exactly when the host has a sensor
    map in which one of the listed sensors has a reading; the value is the
    current temperature of the first entry of the first such sensor in the
    order of the list, whatever the later sensors hold. *)
Theorem get_cpu_temperature_some_iff (h : host) (v : Q) :
  Richfetch.get_cpu_temperature h = Some v <->
  exists all before sensor after t ts,
    sensors_temperatures h = Some all /\
    Richfetch.sensors = before ++ sensor :: after /\
    forallb (fun s => negb (has_reading all s)) before = true /\
    all !! sensor = Some (t :: ts) /\ current t = v.
Proof.
  split.
  - unfold Richfetch.get_cpu_temperature.
    destruct (sensors_temperatures h) as [all|]; [|discriminate].
    intros H. apply get_cpu_temperature_loop_some in H
      as (before & sensor & after & t & ts & Hs & Hb & Ht & Hv).
    exists all, before, sensor, after, t, ts. auto.
  - intros (all & before & sensor & after & t & ts & Hall & Hs & Hb & Ht & <-).
    now apply (get_cpu_temperature_first h all before after sensor t ts).
Qed.

(** X2: the collector returns [None] exactly when the host gives no sensor
    map or none of the seven listed sensors has a reading in it: a sensor
    that is not in the list, or one that is listed with an empty list of
    readings, does not count. *)
Theorem get_cpu_temperature_none_iff (h : host) :
  Richfetch.get_cpu_temperature h = None <->
  sensors_temperatures h = None \/
  exists all,
    sensors_temperatures h = Some all /\
    forallb (fun s => negb (has_reading all s)) Richfetch.sensors = true.
Proof.
  split.
  - unfold Richfetch.get_cpu_temperature.
    destruct (sensors_temperatures h) as [all|]; [|now left].
    intros H. right. exists all. split; [reflexivity|].
    now apply get_cpu_temperature_loop_none_inv.
  - intros [H|(all & Hall & Hb)].
    + unfold Richfetch.get_cpu_temperature. now rewrite H.
    + now apply (get_cpu_temperature_unavailable h all).
Qed.

(** ** The session manager *)

(** X3: the session-manager name is DESKTOP_SESSION when that variable is
    set to a non-empty string; when it is unset or empty the name is
    whatever XDG_SESSION_TYPE holds; so the name is [None] exactly when
    DESKTOP_SESSION is unset or empty and XDG_SESSION_TYPE is unset. *)
Theorem window_manager_fallback (h : host) :
  (forall s, environ h !! "DESKTOP_SESSION" = Some s -> s <> "" ->
             window_manager h = Some s) /\
  (environ h !! "DESKTOP_SESSION" = None \/
   environ h !! "DESKTOP_SESSION" = Some "" ->
   window_manager h = environ h !! "XDG_SESSION_TYPE") /\
  (window_manager h = None <->
   (environ h !! "DESKTOP_SESSION" = None \/
    environ h !! "DESKTOP_SESSION" = Some "") /\
   environ h !! "XDG_SESSION_TYPE" = None).
Proof.
  unfold window_manager, py_or.
  destruct (environ h !! "DESKTOP_SESSION") as [s|].
  - destruct (String.eqb_spec s "") as [->|Hs].
    + split; [intros s' [= <-] Hs'; congruence|].
      split; [reflexivity|]. split; [now split; [right|]|now intros [_ H]].
    + split; [now intros s' [= <-] _|].
      split; [intros [H|[= H]]; [discriminate|contradiction]|].
      split; [discriminate|].
      intros [[H|[= H]] _]; [discriminate|contradiction].
  - split; [discriminate|]. split; [reflexivity|].
    split; [now split; [left|]|now intros [_ H]].
Qed.
(** ** The lookups, case by case *)

(** The four ways a private-IP lookup of the rich variant can go. *)
Lemma get_private_ip_cases (h : host) (t : trace) :
  (exists e line,
     socket_result h = inl e /\
     Richfetch.get_private_ip h t = (inr None, t ++ [Stdout (line +:+ nl)])) \/
  (exists s e line,
     socket_result h = inr s /\ connect_error s = Some e /\
     Richfetch.get_private_ip h t
       = (inr None,
          t ++ [SocketCreate; SocketConnect "8.8.8.8" 80;
                Stdout (line +:+ nl)])) \/
  (exists s e line,
     socket_result h = inr s /\ connect_error s = None /\
     getsockname_result s = inl e /\
     Richfetch.get_private_ip h t
       = (inr None,
          t ++ [SocketCreate; SocketConnect "8.8.8.8" 80; SocketGetsockname;
                Stdout (line +:+ nl)])) \/
  (exists s ip,
     socket_result h = inr s /\ connect_error s = None /\
     getsockname_result s = inr ip /\
     Richfetch.get_private_ip h t
       = (inr (Some ip),
          t ++ [SocketCreate; SocketConnect "8.8.8.8" 80; SocketGetsockname;
                SocketClose])).
Proof.
  unfold Richfetch.get_private_ip, try_except, socket_socket, socket_connect,
    socket_getsockname, socket_close.
  run_M.
  destruct (socket_result h) as [e|s] eqn:Es; run_M.
  - left. exists e. destruct (is_socket_error e); run_M; eexists; split;
      reflexivity.
  - right. destruct (connect_error s) as [e|] eqn:Ec; run_M.
    + left. exists s, e.
      destruct (is_socket_error e); run_M; eexists;
        rewrite <- ?app_assoc; repeat split; first [assumption|reflexivity].
    + right. destruct (getsockname_result s) as [e|ip] eqn:Eg; run_M.
      * left. exists s, e.
        destruct (is_socket_error e); run_M; eexists;
          rewrite <- ?app_assoc; repeat split; first [assumption|reflexivity].
      * right. exists s, ip. rewrite <- ?app_assoc. repeat split; first [assumption|reflexivity].
Qed.

(** The same for the minimal variant, which prints nothing. *)
Lemma get_local_address_cases (h : host) (t : trace) :
  (exists e,
     socket_result h = inl e /\
     Fetch.get_local_address h t = (inr None, t ++ [])) \/
  (exists s e,
     socket_result h = inr s /\ connect_error s = Some e /\
     Fetch.get_local_address h t
       = (inr None, t ++ [SocketCreate; SocketConnect "8.8.8.8" 80])) \/
  (exists s e,
     socket_result h = inr s /\ connect_error s = None /\
     getsockname_result s = inl e /\
     Fetch.get_local_address h t
       = (inr None,
          t ++ [SocketCreate; SocketConnect "8.8.8.8" 80; SocketGetsockname])) \/
  (exists s ip,
     socket_result h = inr s /\ connect_error s = None /\
     getsockname_result s = inr ip /\
     Fetch.get_local_address h t
       = (inr (Some ip),
          t ++ [SocketCreate; SocketConnect "8.8.8.8" 80; SocketGetsockname;
                SocketClose])).
Proof.
  unfold Fetch.get_local_address, try_except, socket_socket, socket_connect,
    socket_getsockname, socket_close.
  run_M.
  destruct (socket_result h) as [e|s] eqn:Es; run_M.
  - left. exists e. now rewrite app_nil_r.
  - right. destruct (connect_error s) as [e|] eqn:Ec; run_M.
    + left. exists s, e. rewrite <- ?app_assoc. repeat split; first [assumption|reflexivity].
    + right. destruct (getsockname_result s) as [e|ip] eqn:Eg; run_M.
      * left. exists s, e. rewrite <- ?app_assoc. repeat split; first [assumption|reflexivity].
      * right. exists s, ip. rewrite <- ?app_assoc. repeat split; first [assumption|reflexivity].
Qed.

(** The success of the HTTP call, read off the host. *)
Lemma http_success_or_failure (h : host) :
  http_failure h \/
  exists r fields ip,
    requests_get_result h = inr r /\ status_error r = None /\
    json_result r = inr (JObject fields) /\ fields !! "ip" = Some ip.
Proof.
  destruct (requests_get_result h) as [e|r] eqn:E1.
  { left. now apply (transport_error h e). }
  destruct (status_error r) as [e|] eqn:E2.
  { left. now apply (error_status h r e). }
  destruct (json_result r) as [e|j] eqn:E3.
  { left. now apply (malformed_body h r e). }
  destruct j as [fields| |].
  - destruct (fields !! "ip") as [ip|] eqn:E4.
    + right. now exists r, fields, ip.
    + left. now apply (unexpected_shape h r (JObject fields)).
  - left. now apply (unexpected_shape h r JArray).
  - left. now apply (unexpected_shape h r JScalar).
Qed.


Lemma get_public_ip_success (h : host) (t : trace) (r : response)
    (fields : gmap string string) (ip : string) :
  requests_get_result h = inr r -> status_error r = None ->
  json_result r = inr (JObject fields) -> fields !! "ip" = Some ip ->
  Richfetch.get_public_ip h t
    = (inr (Some ip), t ++ [HttpGet "https://api.ipify.org?format=json"]).
Proof.
  intros H1 H2 H3 H4.
  unfold Richfetch.get_public_ip, try_except, requests_get, raise_for_status,
    response_json, json_getitem.
  run_M. rewrite H1. run_M. rewrite H2. run_M. rewrite H3. run_M.
  now rewrite H4.
Qed.

Lemma get_public_address_success (h : host) (t : trace) (r : response)
    (fields : gmap string string) (ip : string) :
  requests_get_result h = inr r -> status_error r = None ->
  json_result r = inr (JObject fields) -> fields !! "ip" = Some ip ->
  Fetch.get_public_address h t
    = (inr (Some ip), t ++ [HttpGet "https://api.ipify.org?format=json"]).
Proof.
  intros H1 H2 H3 H4.
  unfold Fetch.get_public_address, try_except, requests_get, raise_for_status,
    response_json, json_getitem.
  run_M. rewrite H1. run_M. rewrite H2. run_M. rewrite H3. run_M.
  now rewrite H4.
Qed.


(** X5: when the body of the response is a JSON object without the [ip]
    field, the [KeyError] is caught: the rich lookup returns [None] and
    reports it as an unexpected error that names the key, and the minimal
    lookup returns [None] without a word. *)
Theorem missing_ip_field_is_caught (h : host) (t : trace) (r : response)
    (fields : gmap string string) :
  requests_get_result h = inr r -> status_error r = None ->
  json_result r = inr (JObject fields) -> fields !! "ip" = None ->
  Richfetch.get_public_ip h t
    = (inr None,
       t ++ [HttpGet "https://api.ipify.org?format=json";
             Stdout ("Unexpected error: 'ip'" +:+ nl)]) /\
  Fetch.get_public_address h t
    = (inr None, t ++ [HttpGet "https://api.ipify.org?format=json"]).
Proof.
  intros H1 H2 H3 H4. split.
  - unfold Richfetch.get_public_ip, try_except, requests_get,
      raise_for_status, response_json, json_getitem.
    run_M. rewrite H1. run_M. rewrite H2. run_M. rewrite H3. run_M.
    rewrite H4. run_M. now rewrite <- app_assoc.
  - apply get_public_address_failure.
    now apply (unexpected_shape h r (JObject fields)).
Qed.

(** X6: on every host the lookups of the two variants return the same
    value, and what the minimal one adds to the trace is what the rich one
    adds without the printed messages: the same network calls in the same
    order. *)
Theorem lookups_agree (h : host) (t : trace) :
  (exists v log,
     Richfetch.get_public_ip h t = (inr v, t ++ log) /\
     Fetch.get_public_address h t = (inr v, t ++ List.filter is_network log)) /\
  (exists v log,
     Richfetch.get_private_ip h t = (inr v, t ++ log) /\
     Fetch.get_local_address h t = (inr v, t ++ List.filter is_network log)).
Proof.
  split.
  - destruct (http_success_or_failure h)
      as [Hf|(r & fields & ip & H1 & H2 & H3 & H4)].
    + destruct (get_public_ip_failure h t Hf) as (line & E).
      eexists _, _. split; [exact E|]. now apply get_public_address_failure.
    + eexists _, _.
      split; [exact (get_public_ip_success h t r fields ip H1 H2 H3 H4)|].
      exact (get_public_address_success h t r fields ip H1 H2 H3 H4).
  - destruct (get_private_ip_cases h t)
      as [(e & line & Hs & E)
         |[(s & e & line & Hs & Hc & E)
          |[(s & e & line & Hs & Hc & Hg & E)|(s & ip & Hs & Hc & Hg & E)]]];
      destruct (get_local_address_cases h t)
        as [(e' & Hs' & E')
           |[(s' & e' & Hs' & Hc' & E')
            |[(s' & e' & Hs' & Hc' & Hg' & E')|(s' & ip' & Hs' & Hc' & Hg' & E')]]];
      rewrite Hs in Hs'; try discriminate; injection Hs' as <-;
      try congruence; eexists _, _; (split; [exact E|]); try exact E'.
    rewrite Hg in Hg'. injection Hg' as <-. exact E'.
Qed.

(** X7: a private-IP lookup of the rich variant never raises and sends no
    HTTP request.  It returns an address exactly when creating the socket,
    connecting it and reading its name all succeed; the socket is closed
    exactly in that case, it is created exactly when [socket()] does not
    raise, and it is connected to 8.8.8.8 port 80 and nowhere else. *)
Theorem private_ip_socket_discipline (h : host) (t : trace) :
  exists v log,
    Richfetch.get_private_ip h t = (inr v, t ++ log) /\
    (In SocketClose log <-> v <> None) /\
    (In SocketCreate log <-> exists s, socket_result h = inr s) /\
    count_http log = 0 /\
    (forall ip,
       v = Some ip <->
       exists s,
         socket_result h = inr s /\ connect_error s = None /\
         getsockname_result s = inr ip) /\
    (forall address port,
       In (SocketConnect address port) log ->
       address = "8.8.8.8" /\ port = 80%Z).
Proof.
  destruct (get_private_ip_cases h t)
    as [(e & line & Hs & E)
       |[(s & e & line & Hs & Hc & E)
        |[(s & e & line & Hs & Hc & Hg & E)|(s & ip & Hs & Hc & Hg & E)]]];
    eexists _, _; (split; [exact E|]).
  all: split;
    [cbn [In]; split; [intros H; decompose [or] H; try discriminate;
                       try contradiction; congruence
                      |intros H; try congruence; tauto]|].
  all: split;
    [cbn [In]; split;
       [intros H; decompose [or] H; try discriminate; try contradiction;
        eauto
       |intros (s' & Hs'); try congruence; tauto]|].
  all: split; [reflexivity|].
  all: split;
    [intros ip'; split;
       [intros [= <-]; eauto
       |intros (s' & Hs' & Hc' & Hg'); rewrite Hs in Hs';
        try discriminate; injection Hs' as <-; congruence]
    |cbn [In]; intros a p H; decompose [or] H; try discriminate;
     try contradiction;
     match goal with E : SocketConnect _ _ = SocketConnect _ _ |- _ =>
       injection E as <- <-; now split end].
Qed.

(** ** The minimal run *)

Lemma coretemp_current_cases (h : host) (t : trace) :
  (exists all r rs,
     sensors_temperatures h = Some all /\
     all !! "coretemp" = Some (r :: rs) /\
     Fetch.coretemp_current h h t = (inr (current r), t)) \/
  (exists e,
     Fetch.coretemp_current h h t = (inl e, t) /\
     In (exn_cls e) [TypeError; KeyError; IndexError] /\
     ~ (exists all r rs,
          sensors_temperatures h = Some all /\
          all !! "coretemp" = Some (r :: rs))).
Proof.
  unfold Fetch.coretemp_current.
  destruct (sensors_temperatures h) as [all|] eqn:Eh.
  - destruct (all !! "coretemp") as [[|r rs]|] eqn:Ec.
    + right. eexists. split; [reflexivity|]. split; [cbn; tauto|].
      intros (all' & r & rs & [= <-] & E). congruence.
    + left. now exists all, r, rs.
    + right. eexists. split; [reflexivity|]. split; [cbn; tauto|].
      intros (all' & r & rs & [= <-] & E). congruence.
  - right. eexists. split; [reflexivity|]. split; [cbn; tauto|].
    intros (all' & r & rs & E & _). discriminate.
Qed.


(** A lookup depends on the host through the answer of its library call
    only. *)
Lemma get_local_address_ext (h h' : host) (t : trace) :
  socket_result h' = socket_result h ->
  Fetch.get_local_address h' t = Fetch.get_local_address h t.
Proof.
  intros E.
  unfold Fetch.get_local_address, try_except, socket_socket, socket_connect,
    socket_getsockname, socket_close.
  run_M. rewrite E.
  destruct (socket_result h) as [e|s]; run_M; [reflexivity|].
  destruct (connect_error s) as [e|]; run_M; [reflexivity|].
  destruct (getsockname_result s) as [e|ip]; reflexivity.
Qed.

Lemma get_private_ip_ext (h h' : host) (t : trace) :
  socket_result h' = socket_result h ->
  Richfetch.get_private_ip h' t = Richfetch.get_private_ip h t.
Proof.
  intros E.
  unfold Richfetch.get_private_ip, try_except, socket_socket, socket_connect,
    socket_getsockname, socket_close.
  run_M. rewrite E.
  destruct (socket_result h) as [e|s]; run_M.
  { destruct (is_socket_error e); reflexivity. }
  destruct (connect_error s) as [e|]; run_M.
  { destruct (is_socket_error e); reflexivity. }
  destruct (getsockname_result s) as [e|ip]; run_M; [|reflexivity].
  destruct (is_socket_error e); reflexivity.
Qed.

Lemma get_public_address_ext (h h' : host) (t : trace) :
  requests_get_result h' = requests_get_result h ->
  Fetch.get_public_address h' t = Fetch.get_public_address h t.
Proof.
  intros E.
  unfold Fetch.get_public_address, try_except, requests_get, raise_for_status,
    response_json, json_getitem.
  run_M. rewrite E.
  destruct (requests_get_result h) as [e|r]; run_M; [reflexivity|].
  destruct (status_error r) as [e|]; run_M; [reflexivity|].
  destruct (json_result r) as [e|[fields| |]]; run_M; try reflexivity.
  destruct (fields !! "ip"); reflexivity.
Qed.

Lemma get_public_ip_ext (h h' : host) (t : trace) :
  requests_get_result h' = requests_get_result h ->
  Richfetch.get_public_ip h' t = Richfetch.get_public_ip h t.
Proof.
  intros E.
  unfold Richfetch.get_public_ip, try_except, requests_get, raise_for_status,
    response_json, json_getitem.
  run_M. rewrite E.
  destruct (requests_get_result h) as [e|r]; run_M.
  { destruct (is_RequestException e); reflexivity. }
  destruct (status_error r) as [e|]; run_M.
  { destruct (is_RequestException e); reflexivity. }
  destruct (json_result r) as [e|[fields| |]]; run_M; try reflexivity.
  { destruct (is_RequestException e); reflexivity. }
  destruct (fields !! "ip"); reflexivity.
Qed.

(** Storing twice under one key is storing the second value. *)
Lemma dict_set_set {V : Type} (k : string) (v v' : V) (d : pydict V) :
  dict_set k v' (dict_set k v d) = dict_set k v' d.
Proof.
  induction d as [|[k0 v0] d IH]; cbn [dict_set].
  - now rewrite String.eqb_refl.
  - destruct (String.eqb k0 k) eqn:E; cbn [dict_set]; rewrite E;
      [reflexivity|now rewrite IH].
Qed.

Lemma dict_literal_overwrite {V : Type} (a : string * V) (k : string)
    (v v' : V) (rest : pydict V) :
  dict_literal (a :: (k, v) :: (k, v') :: rest)
  = dict_literal (a :: (k, v') :: rest).
Proof.
  unfold dict_literal, dict_update. cbn [fold_left fst snd].
  now rewrite dict_set_set.
Qed.

(** X9: the minimal report never shows the CPU name, on any terminal: its
    display stores the CPU name and the CPU load under the same key, so
    hosts that differ in the CPU name only give the same display, the same
    trace and the same output. *)
Theorem minimal_report_ignores_cpu_name (colored : string -> string -> string)
    (format_float format_2f : Q -> string) (h : host) (name : string)
    (t : trace) :
  Fetch.get_system_info colored format_float format_2f
    (with_brand_raw h name) t
  = Fetch.get_system_info colored format_float format_2f h t /\
  Fetch.main colored format_float format_2f (with_brand_raw h name) t
  = Fetch.main colored format_float format_2f h t.
Proof.
  assert (E : Fetch.get_system_info colored format_float format_2f
                (with_brand_raw h name) t
              = Fetch.get_system_info colored format_float format_2f h t).
  { assert (Ec : Fetch.coretemp_current (with_brand_raw h name)
                     (with_brand_raw h name) t
                   = Fetch.coretemp_current h h t).
    { unfold Fetch.coretemp_current. cbn [sensors_temperatures with_brand_raw].
      destruct (sensors_temperatures h) as [all|]; [|reflexivity].
      destruct (all !! "coretemp") as [[|r rs]|]; reflexivity. }
    destruct (coretemp_current_cases h t)
      as [(all & r & rs & Hall & Hc & Et)|(e & Et & _)];
      pose proof Et as Et'; rewrite <- Ec in Et'.
    - rewrite (fetch_get_system_info_run colored format_float format_2f h t
                 _ Et).
      rewrite (fetch_get_system_info_run colored format_float format_2f
                 (with_brand_raw h name) t _ Et').
      cbv zeta.
      rewrite (get_local_address_ext h (with_brand_raw h name) t eq_refl).
      rewrite (get_public_address_ext h (with_brand_raw h name) _ eq_refl).
      unfold minimal_items. rewrite !dict_literal_overwrite. reflexivity.
    - rewrite (fetch_get_system_info_raises colored format_float format_2f
                 h t e Et).
      now rewrite (fetch_get_system_info_raises colored format_float
                     format_2f (with_brand_raw h name) t e Et'). }
  split; [exact E|].
  destruct (Fetch.get_system_info colored format_float format_2f h t)
    as [[e|d] t'] eqn:Eh.
  - rewrite (fetch_main_raises _ _ _ _ _ _ _ Eh).
    now rewrite (fetch_main_raises _ _ _ _ _ _ _ E).
  - rewrite (fetch_main_run _ _ _ _ _ _ _ Eh).
    now rewrite (fetch_main_run _ _ _ _ _ _ _ E).
Qed.

(** ** The rich run on any terminal *)

(** A run of [get_system_info] returns a display, and its trace is the one
    the two lookups leave, whatever [colored] does. *)
Lemma rich_get_system_info_returns (colored : string -> string -> string)
    (format_float format_2f : Q -> string) (args : Richfetch.Namespace)
    (h : host) (t : trace) :
  let r1 :=
    (if Richfetch.show_private_ip args then Richfetch.get_private_ip
     else mret None) h t in
  let r2 :=
    (if Richfetch.show_public_ip args then Richfetch.get_public_ip
     else mret None) h (snd r1) in
  exists d,
    Richfetch.get_system_info colored format_float format_2f args h t
    = (inr d, snd r2).
Proof.
  intros r1 r2. subst r1 r2. unfold Richfetch.get_system_info.
  set (m1 := if Richfetch.show_private_ip args then _ else _).
  set (m2 := if Richfetch.show_public_ip args then _ else _).
  change (if Richfetch.show_private_ip args then Richfetch.get_private_ip
          else mret None) with m1.
  change (if Richfetch.show_public_ip args then Richfetch.get_public_ip
          else mret None) with m2.
  assert (E1 : exists v1 t1, m1 h t = (inr v1, t1)).
  { subst m1. destruct (Richfetch.show_private_ip args).
    - destruct (get_private_ip_returns h t) as (v & log & ->). eauto.
    - eexists _, _. reflexivity. }
  destruct E1 as (v1 & t1 & E1).
  assert (E2 : exists v2 t2, m2 h t1 = (inr v2, t2)).
  { subst m2. destruct (Richfetch.show_public_ip args).
    - destruct (get_public_ip_returns h t1) as (v & log & -> & _). eauto.
    - eexists _, _. reflexivity. }
  destruct E2 as (v2 & t2 & E2).
  clearbody m1 m2. rewrite E1. cbn [snd]. rewrite E2. cbn [snd].
  unfold try_except, Richfetch.battery_percent, Richfetch.battery_power_plugged.
  run_M.
  destruct (sensors_battery h) as [b|]; run_M.
  all: rewrite E1; cbn [fst snd]; rewrite E2; cbn [fst snd].
  all: eexists; reflexivity.
Qed.

(** What the two lookups of a run leave in the trace. *)
Lemma rich_lookup_logs (args : Richfetch.Namespace) (h : host) (t : trace) :
  let r1 :=
    (if Richfetch.show_private_ip args then Richfetch.get_private_ip
     else mret None) h t in
  let r2 :=
    (if Richfetch.show_public_ip args then Richfetch.get_public_ip
     else mret None) h (snd r1) in
  exists log1 log2,
    snd r1 = t ++ log1 /\ snd r2 = (t ++ log1) ++ log2 /\
    count_http log1 = 0 /\
    forallb (fun e => negb (is_socket_event e)) log2 = true /\
    count_http log2 = (if Richfetch.show_public_ip args then 1 else 0) /\
    (Richfetch.show_private_ip args = false -> log1 = []) /\
    (Richfetch.show_public_ip args = false -> log2 = []).
Proof.
  intros r1 r2.
  assert (H1 : exists log1,
             snd r1 = t ++ log1 /\ count_http log1 = 0 /\
             (Richfetch.show_private_ip args = false -> log1 = [])).
  { subst r1. destruct (Richfetch.show_private_ip args).
    - destruct (get_private_ip_cases h t)
        as [(e & line & Hs & E)
           |[(s & e & line & Hs & Hc & E)
            |[(s & e & line & Hs & Hc & Hg & E)|(s & ip & Hs & Hc & Hg & E)]]];
        rewrite E; eexists; (split; [reflexivity|]);
        (split; [reflexivity|discriminate]).
    - exists []. split; [now rewrite app_nil_r|]. now split. }
  destruct H1 as (log1 & E1 & Hh1 & Hp1).
  exists log1. subst r2. rewrite E1.
  destruct (Richfetch.show_public_ip args).
  - destruct (http_success_or_failure h)
      as [Hf|(r & fields & ip & G1 & G2 & G3 & G4)].
    + destruct (get_public_ip_failure h (t ++ log1) Hf) as (line & E).
      rewrite E. eexists. repeat split; try reflexivity; try assumption.
      discriminate.
    + rewrite (get_public_ip_success h (t ++ log1) r fields ip G1 G2 G3 G4).
      eexists. repeat split; try reflexivity; try assumption. discriminate.
  - exists []. repeat split; try assumption. cbn. now rewrite app_nil_r.
Qed.


(** X11: the network calls of a rich run: the private-IP lookup comes
    before the public-IP lookup; the first sends no HTTP request and the
    second touches no socket; there is exactly one HTTP request when
    --show-public-ip is given and none otherwise, and without
    --show-private-ip no socket call is made. *)
Theorem rich_network_calls (colored : string -> string -> string)
    (format_float format_2f : Q -> string) (args : Richfetch.Namespace)
    (h : host) (t : trace) :
  exists d log1 log2,
    Richfetch.get_system_info colored format_float format_2f args h t
      = (inr d, t ++ log1 ++ log2) /\
    count_http log1 = 0 /\
    forallb (fun e => negb (is_socket_event e)) log2 = true /\
    count_http (log1 ++ log2)
      = (if Richfetch.show_public_ip args then 1 else 0) /\
    (Richfetch.show_private_ip args = false ->
     forallb (fun e => negb (is_socket_event e)) (log1 ++ log2) = true) /\
    (Richfetch.show_private_ip args = false ->
     Richfetch.show_public_ip args = false -> log1 ++ log2 = []).
Proof.
  destruct (rich_get_system_info_returns colored format_float format_2f args
              h t) as (d & E).
  destruct (rich_lookup_logs args h t)
    as (log1 & log2 & _ & E2 & H1 & H2 & H3 & H4 & H5).
  cbv zeta in E, E2. rewrite E2, <- app_assoc in E.
  exists d, log1, log2. split; [exact E|]. split; [exact H1|].
  split; [exact H2|]. split; [|split].
  - unfold count_http in *. rewrite List.filter_app, List.length_app. lia.
  - intros Hp. rewrite (H4 Hp). exact H2.
  - intros Hp Hu. now rewrite (H4 Hp), (H5 Hu).
Qed.

Lemma dict_literal_overwrite2 {V : Type} (a b : string * V) (k : string)
    (v v' : V) (rest : pydict V) :
  dict_literal (a :: b :: (k, v) :: (k, v') :: rest)
  = dict_literal (a :: b :: (k, v') :: rest).
Proof.
  unfold dict_literal, dict_update. cbn [fold_left fst snd].
  now rewrite dict_set_set.
Qed.

(** X12: when [colored] gives the CPU glyph in blue and the CPU glyph in
    the color of the CPU load the same label, as it does when colors are
    off, the rich report does not show the CPU name either: hosts that
    differ in the CPU name only give the same display and the same
    trace. *)
Theorem rich_report_cpu_name_lost (colored : string -> string -> string)
    (format_float format_2f : Q -> string) (args : Richfetch.Namespace)
    (h : host) (name : string) (t : trace) :
  colored (utf8 0xEC19) "blue"
    = colored (utf8 0xEC19) (Richfetch.color_usage_percent (cpu_percent h)) ->
  Richfetch.get_system_info colored format_float format_2f args
    (with_brand_raw h name) t
  = Richfetch.get_system_info colored format_float format_2f args h t.
Proof.
  intros Hc. unfold Richfetch.get_system_info.
  set (m1 := if Richfetch.show_private_ip args then _ else _).
  set (m2 := if Richfetch.show_public_ip args then _ else _).
  change (if Richfetch.show_private_ip args then Richfetch.get_private_ip
          else mret None) with m1.
  change (if Richfetch.show_public_ip args then Richfetch.get_public_ip
          else mret None) with m2.
  assert (X1 : forall t0, m1 (with_brand_raw h name) t0 = m1 h t0).
  { intros t0. subst m1. destruct (Richfetch.show_private_ip args);
      [now apply get_private_ip_ext|reflexivity]. }
  assert (X2 : forall t0, m2 (with_brand_raw h name) t0 = m2 h t0).
  { intros t0. subst m2. destruct (Richfetch.show_public_ip args);
      [now apply get_public_ip_ext|reflexivity]. }
  assert (E1 : exists v1 t1, m1 h t = (inr v1, t1)).
  { subst m1. destruct (Richfetch.show_private_ip args).
    - destruct (get_private_ip_returns h t) as (v & log & ->). eauto.
    - eexists _, _. reflexivity. }
  destruct E1 as (v1 & t1 & E1).
  assert (E2 : exists v2 t2, m2 h t1 = (inr v2, t2)).
  { subst m2. destruct (Richfetch.show_public_ip args).
    - destruct (get_public_ip_returns h t1) as (v & log & -> & _). eauto.
    - eexists _, _. reflexivity. }
  destruct E2 as (v2 & t2 & E2).
  clearbody m1 m2.
  unfold try_except, Richfetch.battery_percent, Richfetch.battery_power_plugged.
  run_M.
  cbn [with_brand_raw sensors_battery cpu_percent].
  destruct (sensors_battery h) as [b|]; run_M.
  all: rewrite X1, E1; cbn [fst snd]; rewrite X2, E2; cbn [fst snd].
  all: rewrite <- Hc, !dict_literal_overwrite2.
  all: reflexivity.
Qed.

(** X12 at the laptop with colors off. *)
Lemma rich_report_cpu_name_lost_witness :
  plain_colored (utf8 0xEC19) "blue"
    = plain_colored (utf8 0xEC19)
        (Richfetch.color_usage_percent (cpu_percent laptop)) /\
  Richfetch.get_system_info plain_colored (fixed_point 1) (fixed_point 2)
    both_flags (with_brand_raw laptop "AMD Ryzen 7 5800X 8-Core Processor") []
  = Richfetch.get_system_info plain_colored (fixed_point 1) (fixed_point 2)
      both_flags laptop [].
Proof.
  split; [reflexivity|].
  exact (rich_report_cpu_name_lost plain_colored (fixed_point 1)
           (fixed_point 2) both_flags laptop
           "AMD Ryzen 7 5800X 8-Core Processor" [] eq_refl).
Defined.

(** ** The optional entries of the rich report *)

(** [round] gives an integer at most one half away. *)
Lemma py_round_nearest (x : Q) :
  (inject_Z (py_round x) - (1 # 2) <= x)%Q /\
  (x <= inject_Z (py_round x) + (1 # 2))%Q.
Proof.
  unfold py_round.
  pose proof (Qfloor_le x) as Hlo.
  pose proof (Qlt_floor x) as Hhi.
  rewrite inject_Z_plus in Hhi. change (inject_Z 1) with 1%Q in Hhi.
  set (f := Qfloor x) in *. clearbody f.
  destruct (py_lt_cases (x - inject_Z f) (1 # 2)) as [[E1 H1]|[E1 H1]];
    rewrite E1.
  { split; lra. }
  destruct (py_lt_cases (1 # 2) (x - inject_Z f)) as [[E2 H2]|[E2 H2]];
    rewrite E2.
  { rewrite inject_Z_plus. change (inject_Z 1) with 1%Q. split; lra. }
  destruct (Z.even f).
  - split; lra.
  - rewrite inject_Z_plus. change (inject_Z 1) with 1%Q. split; lra.
Qed.

Section OptionalEntries.

Variable colored : string -> string -> string.
Variable format_float : Q -> string.
Variable format_2f : Q -> string.
Hypothesis terminal : color_terminal colored.

(** X13: on a terminal that shows colors, the display of the rich run has
    nine entries and one more for each of the temperature, the battery,
    the private address and the public address that was obtained: from 9
    to 13, under pairwise distinct keys; [main] prints that many lines
    between its two blank lines. *)
Theorem rich_report_size (args : Richfetch.Namespace) (h : host) (t : trace) :
  let r1 :=
    (if Richfetch.show_private_ip args then Richfetch.get_private_ip
     else mret None) h t in
  let r2 :=
    (if Richfetch.show_public_ip args then Richfetch.get_public_ip
     else mret None) h (snd r1) in
  exists d t',
    Richfetch.get_system_info colored format_float format_2f args h t
      = (inr d, t') /\
    length d
      = 9 + Nat.b2n (is_not_None (Richfetch.get_cpu_temperature h))
          + Nat.b2n (is_not_None (sensors_battery h))
          + Nat.b2n (is_not_None (returned r1))
          + Nat.b2n (is_not_None (returned r2)) /\
    9 <= length d <= 13 /\
    List.NoDup (dict_keys d) /\
    exists lines,
      Richfetch.main colored format_float format_2f args h t
        = (inr tt, t' ++ [Stdout nl] ++ lines ++ [Stdout nl]) /\
      length lines = length d.
Proof.
  intros r1 r2.
  pose proof (rich_get_system_info_run colored format_float format_2f terminal
                args h t) as E.
  cbv zeta in E. fold r1 r2 in E.
  eexists _, _. split; [exact E|].
  assert (L : length
                (rich_entries colored format_float format_2f h (returned r1)
                   (returned r2))
              = 9 + Nat.b2n (is_not_None (Richfetch.get_cpu_temperature h))
                  + Nat.b2n (is_not_None (sensors_battery h))
                  + Nat.b2n (is_not_None (returned r1))
                  + Nat.b2n (is_not_None (returned r2))).
  { unfold rich_entries, temperature_entry, battery_entry.
    destruct (Richfetch.get_cpu_temperature h), (sensors_battery h),
      (returned r1), (returned r2); reflexivity. }
  split; [exact L|]. split.
  { rewrite L.
    destruct (is_not_None (Richfetch.get_cpu_temperature h)),
      (is_not_None (sensors_battery h)), (is_not_None (returned r1)),
      (is_not_None (returned r2)); cbn; lia. }
  split; [now apply rich_keys_NoDup|].
  eexists. split; [exact (rich_main_run _ _ _ _ _ _ _ _ E)|].
  unfold report_events. apply List.length_map.
Qed.


(** X15: when the host has a battery, the rich report has its entry under
    the charging glyph if [power_plugged] is [True] and under the other
    glyph if it is [False] or unknown, in green; the value is the
    percentage rounded to an integer at most one half away, with a percent
    sign. *)
Theorem battery_entry_shown (args : Richfetch.Namespace) (h : host)
    (t : trace) (b : sbattery) :
  sensors_battery h = Some b ->
  exists d t',
    Richfetch.get_system_info colored format_float format_2f args h t
      = (inr d, t') /\
    dict_get
      (colored
         match power_plugged b with
         | Some true => utf8 0xF0084
         | _ => utf8 0xF12A3
         end "green") d
      = Some (Some (str_int (py_round (percent b)) +:+ "%")) /\
    (inject_Z (py_round (percent b)) - (1 # 2) <= percent b)%Q /\
    (percent b <= inject_Z (py_round (percent b)) + (1 # 2))%Q.
Proof.
  intros Hb. eexists _, _.
  split; [apply (rich_get_system_info_run colored format_float format_2f
                   terminal)|].
  split; [|apply py_round_nearest].
  apply dict_get_NoDup; [now apply rich_keys_NoDup|].
  unfold rich_entries, battery_entry. rewrite Hb, !in_app_iff.
  right. right. left. left. unfold Richfetch.truthy.
  destruct (power_plugged b) as [[|]|]; reflexivity.
Qed.

(** X16: when a temperature was read, the rich report has its entry under
    the thermometer glyph in the color the temperature classifier gives
    for the reading, and the value is the reading followed by the degree
    glyph. *)
Theorem temperature_entry_shown (args : Richfetch.Namespace) (h : host)
    (t : trace) (temp : Q) :
  Richfetch.get_cpu_temperature h = Some temp ->
  exists d t',
    Richfetch.get_system_info colored format_float format_2f args h t
      = (inr d, t') /\
    dict_get (colored (utf8 0xF2C9) (Richfetch.color_cpu_temp temp)) d
      = Some (Some (format_float temp +:+ utf8 0xF0504)).
Proof.
  intros Ht. eexists _, _.
  split; [apply (rich_get_system_info_run colored format_float format_2f
                   terminal)|].
  apply dict_get_NoDup; [now apply rich_keys_NoDup|].
  unfold rich_entries, temperature_entry. rewrite Ht, !in_app_iff.
  right. left. now left.
Qed.

(** X17: on a terminal that shows colors, a minimal run whose temperature
    read succeeds returns nine entries under pairwise distinct keys, though
    its display is written with ten items, and prints nine lines after the
    blank one. *)
Theorem minimal_report_size (h : host) (t : trace) (temp : Q) :
  Fetch.coretemp_current h h t = (inr temp, t) ->
  exists d t',
    Fetch.get_system_info colored format_float format_2f h t = (inr d, t') /\
    length d = 9 /\
    List.NoDup (dict_keys d) /\
    exists lines,
      Fetch.main colored format_float format_2f h t
        = (inr tt, t' ++ [Stdout nl] ++ lines) /\
      length lines = 9.
Proof.
  intros Et.
  pose proof (fetch_get_system_info_run colored format_float format_2f h t
                temp Et) as E.
  cbv zeta in E. rewrite (minimal_display colored format_float format_2f terminal) in E.
  eexists _, _. split; [exact E|]. split; [reflexivity|].
  split; [now apply minimal_keys_NoDup|].
  eexists. split; [exact (fetch_main_run _ _ _ _ _ _ _ E)|]. reflexivity.
Qed.

End OptionalEntries.

(** X18: a minimal run whose temperature read succeeds makes its network
    calls in one order on every host: the socket calls of the private-IP
    lookup first, with no HTTP request among them, then exactly one HTTP
    request, last in the trace, whether or not the private-IP lookup
    succeeded. *)
Theorem minimal_network_calls (colored : string -> string -> string)
    (format_float format_2f : Q -> string) (h : host) (t : trace) (temp : Q) :
  Fetch.coretemp_current h h t = (inr temp, t) ->
  exists d log,
    Fetch.get_system_info colored format_float format_2f h t
      = (inr d, t ++ log ++ [HttpGet "https://api.ipify.org?format=json"]) /\
    forallb is_socket_event log = true /\
    count_http log = 0.
Proof.
  intros Et.
  pose proof (fetch_get_system_info_run colored format_float format_2f h t
                temp Et) as E.
  cbv zeta in E.
  destruct (get_local_address_cases h t)
    as [(e & Hs & E1)
       |[(s & e & Hs & Hc & E1)
        |[(s & e & Hs & Hc & Hg & E1)|(s & ip & Hs & Hc & Hg & E1)]]];
    rewrite E1 in E; cbn [snd] in E;
    match type of E with
    | context [Fetch.get_public_address h ?t0] =>
        destruct (get_public_address_returns h t0) as (v & E2)
    end;
    rewrite E2 in E; cbn [snd] in E; rewrite <- app_assoc in E;
    eexists _, _; (split; [exact E|]); split; reflexivity.
Qed.

(** X5 at a host whose IP service answers with an empty JSON object. *)
Lemma missing_ip_field_is_caught_witness :
  let r := {| status_error := None; json_result := inr (JObject ∅) |} in
  let h := with_network laptop (inr r) routed_socket in
  requests_get_result h = inr r /\ status_error r = None /\
  json_result r = inr (JObject ∅) /\
  (∅ : gmap string string) !! "ip" = None /\
  Richfetch.get_public_ip h []
    = (inr None,
       [] ++ [HttpGet "https://api.ipify.org?format=json";
              Stdout ("Unexpected error: 'ip'" +:+ nl)]) /\
  Fetch.get_public_address h []
    = (inr None, [] ++ [HttpGet "https://api.ipify.org?format=json"]).
Proof.
  cbv zeta. do 4 (split; [reflexivity|]).
  exact (missing_ip_field_is_caught
           (with_network laptop
              (inr {| status_error := None; json_result := inr (JObject ∅) |})
              routed_socket)
           [] {| status_error := None; json_result := inr (JObject ∅) |} ∅
           eq_refl eq_refl eq_refl eq_refl).
Defined.

(** X13 at the laptop off the network, with both flags given. *)
Lemma rich_report_size_witness :
  color_terminal ansi_colored /\
  (let r1 := Richfetch.get_private_ip offline_laptop [] in
   let r2 := Richfetch.get_public_ip offline_laptop (snd r1) in
   exists d t',
     Richfetch.get_system_info ansi_colored (fixed_point 1) (fixed_point 2)
       both_flags offline_laptop [] = (inr d, t') /\
     length d
       = 9 + Nat.b2n (is_not_None (Richfetch.get_cpu_temperature offline_laptop))
           + Nat.b2n (is_not_None (sensors_battery offline_laptop))
           + Nat.b2n (is_not_None (returned r1))
           + Nat.b2n (is_not_None (returned r2)) /\
     9 <= length d <= 13 /\
     List.NoDup (dict_keys d) /\
     exists lines,
       Richfetch.main ansi_colored (fixed_point 1) (fixed_point 2) both_flags
         offline_laptop []
         = (inr tt, t' ++ [Stdout nl] ++ lines ++ [Stdout nl]) /\
       length lines = length d).
Proof.
  split; [exact ansi_terminal|].
  exact (rich_report_size ansi_colored (fixed_point 1) (fixed_point 2)
           ansi_terminal both_flags offline_laptop []).
Defined.


(** X15 at the laptop, whose battery is at 86.5 percent and plugged. *)
Lemma battery_entry_shown_witness :
  let b := {| percent := (173 # 2)%Q; power_plugged := Some true |} in
  color_terminal ansi_colored /\
  sensors_battery laptop = Some b /\
  exists d t',
    Richfetch.get_system_info ansi_colored (fixed_point 1) (fixed_point 2)
      Richfetch.no_flags laptop [] = (inr d, t') /\
    dict_get
      (ansi_colored
         match power_plugged b with
         | Some true => utf8 0xF0084
         | _ => utf8 0xF12A3
         end "green") d
      = Some (Some (str_int (py_round (percent b)) +:+ "%")) /\
    (inject_Z (py_round (percent b)) - (1 # 2) <= percent b)%Q /\
    (percent b <= inject_Z (py_round (percent b)) + (1 # 2))%Q.
Proof.
  cbv zeta. split; [exact ansi_terminal|]. split; [reflexivity|].
  exact (battery_entry_shown ansi_colored (fixed_point 1) (fixed_point 2)
           ansi_terminal Richfetch.no_flags laptop []
           {| percent := (173 # 2)%Q; power_plugged := Some true |} eq_refl).
Defined.

(** X16 at the AMD desktop, whose [k10temp] sensor reads 45 degrees. *)
Lemma temperature_entry_shown_witness :
  color_terminal ansi_colored /\
  Richfetch.get_cpu_temperature amd_desktop = Some 45%Q /\
  exists d t',
    Richfetch.get_system_info ansi_colored (fixed_point 1) (fixed_point 2)
      Richfetch.no_flags amd_desktop [] = (inr d, t') /\
    dict_get (ansi_colored (utf8 0xF2C9) (Richfetch.color_cpu_temp 45%Q)) d
      = Some (Some (fixed_point 1 45%Q +:+ utf8 0xF0504)).
Proof.
  split; [exact ansi_terminal|]. split; [reflexivity|].
  exact (temperature_entry_shown ansi_colored (fixed_point 1) (fixed_point 2)
           ansi_terminal Richfetch.no_flags amd_desktop [] 45%Q eq_refl).
Defined.

(** X17 at the laptop. *)
Lemma minimal_report_size_witness :
  color_terminal ansi_colored /\
  Fetch.coretemp_current laptop laptop [] = (inr 52%Q, []) /\
  exists d t',
    Fetch.get_system_info ansi_colored (fixed_point 1) (fixed_point 2) laptop
      [] = (inr d, t') /\
    length d = 9 /\
    List.NoDup (dict_keys d) /\
    exists lines,
      Fetch.main ansi_colored (fixed_point 1) (fixed_point 2) laptop []
        = (inr tt, t' ++ [Stdout nl] ++ lines) /\
      length lines = 9.
Proof.
  split; [exact ansi_terminal|]. split; [reflexivity|].
  exact (minimal_report_size ansi_colored (fixed_point 1) (fixed_point 2)
           ansi_terminal laptop [] 52%Q eq_refl).
Defined.

(** X18 at the laptop off the network. *)
Lemma minimal_network_calls_witness :
  Fetch.coretemp_current offline_laptop offline_laptop [] = (inr 52%Q, []) /\
  exists d log,
    Fetch.get_system_info ansi_colored (fixed_point 1) (fixed_point 2)
      offline_laptop []
      = (inr d, [] ++ log ++ [HttpGet "https://api.ipify.org?format=json"]) /\
    forallb is_socket_event log = true /\
    count_http log = 0.
Proof.
  split; [reflexivity|].
  exact (minimal_network_calls ansi_colored (fixed_point 1) (fixed_point 2)
           offline_laptop [] 52%Q eq_refl).
Defined.
